(** * ai-investment-analyzer: the sanitizer and the analysis orchestrator

    A shallow embedding of [src/ai_analysis.py]: the text sanitizer
    [sanitize_text], the credential check of [AIAnalyzer.__init__], the
    response parser [_parse_openai_json], the four stages of the stock
    analysis and the 401k analysis, followed by the properties the
    specification states about them.

    Python values are embedded as the JSON-like universe the program
    handles ([pyval]); a Python [str] is its sequence of code points; a
    Python [float] is a binary64 primitive float; a raised exception is the
    [Raise] branch of [result]. *)

From Stdlib Require Import ZArith NArith List String Ascii Bool Lia.
From Stdlib Require Import Floats.PrimFloat Floats.FloatOps Floats.SpecFloat.
Import ListNotations.

Set Warnings "-register-all,-inexact-float".

(* ================================================================== *)
(** ** Python values *)
(* ================================================================== *)

(** A code point of a Python [str] (0 .. 0x10FFFF). *)
Definition codepoint := N.

(** A Python [str]: the list of its code points. *)
Definition ustring := list codepoint.

(** An ASCII literal of the source as a [ustring]. *)
Definition u (s : string) : ustring := map N_of_ascii (list_ascii_of_string s).

Inductive pyval : Type :=
| PyNone
| PyBool (b : bool)
| PyInt (z : Z)
| PyFloat (f : float)
| PyStr (s : ustring)
| PyList (l : list pyval)
| PyDict (d : list (ustring * pyval)).

(** The exceptions the modelled code can meet; all of them derive from
    Python's [Exception], so [except Exception] catches each one. *)
Inductive exn : Type :=
| RuntimeError (msg : ustring)
| TypeError
| ValueError
| OverflowError
| AttributeError
| KeyError
| IndexError
| RecursionError
| APIError (detail : ustring).

Inductive result (A : Type) : Type :=
| Ok (a : A)
| Raise (e : exn).
Arguments Ok {A} a.
Arguments Raise {A} e.

Definition bind {A B} (r : result A) (k : A -> result B) : result B :=
  match r with
  | Ok a => k a
  | Raise e => Raise e
  end.

Notation "x <- r ;; k" := (bind r (fun x => k))
  (at level 61, r at next level, right associativity).
Notation "r ;;; k" := (bind r (fun _ => k))
  (at level 61, right associativity).

(** [try: body / except Exception: handler]. *)
Definition try_except {A} (body : result A) (handler : exn -> A) : A :=
  match body with
  | Ok a => a
  | Raise e => handler e
  end.

Fixpoint ustring_eqb (a b : ustring) : bool :=
  match a, b with
  | [], [] => true
  | x :: a', y :: b' => (x =? y)%N && ustring_eqb a' b'
  | _, _ => false
  end.

(** Truth value of an object ([not s] is its negation). *)
Definition truthy (v : pyval) : bool :=
  match v with
  | PyNone => false
  | PyBool b => b
  | PyInt z => negb (z =? 0)%Z
  | PyFloat f => negb (f =? 0)%float
  | PyStr s => match s with [] => false | _ => true end
  | PyList l => match l with [] => false | _ => true end
  | PyDict d => match d with [] => false | _ => true end
  end.

(** A dict is an association list in insertion order, with unique keys;
    lookup takes the first binding of the key. *)
Fixpoint assoc (k : ustring) (d : list (ustring * pyval)) : option pyval :=
  match d with
  | [] => None
  | (k', v) :: d' => if ustring_eqb k k' then Some v else assoc k d'
  end.

(** [obj.get(key, default)]: only a dict has the method. *)
Definition py_get (obj : pyval) (key : ustring) (default : pyval) : result pyval :=
  match obj with
  | PyDict d => Ok (match assoc key d with Some v => v | None => default end)
  | _ => Raise AttributeError
  end.

(** [obj[key]] with a string key, on a dict. *)
Definition py_getitem (obj : pyval) (key : ustring) : result pyval :=
  match obj with
  | PyDict d => match assoc key d with Some v => Ok v | None => Raise KeyError end
  | _ => Raise TypeError
  end.

(** [len(obj)]. *)
Definition py_len (obj : pyval) : result Z :=
  match obj with
  | PyStr s => Ok (Z.of_nat (List.length s))
  | PyList l => Ok (Z.of_nat (List.length l))
  | PyDict d => Ok (Z.of_nat (List.length d))
  | _ => Raise TypeError
  end.

(** Reading a field of a result from outside the program: [None] is a
    missing key (or an object that is no mapping). *)
Definition field (obj : pyval) (key : string) : option pyval :=
  match obj with
  | PyDict d => assoc (u key) d
  | _ => None
  end.

Definition keys (obj : pyval) : list ustring :=
  match obj with
  | PyDict d => map fst d
  | _ => []
  end.

(* ================================================================== *)
(** ** Text sanitizer: [sanitize_text] *)
(* ================================================================== *)

Definition is_ascii (c : codepoint) : bool := (c <? 128)%N.

Definition EM_DASH : codepoint := 0x2014%N.
Definition EN_DASH : codepoint := 0x2013%N.

(** The [replacements] table, in the order the dict literal lists it. *)
Definition replacements : list (codepoint * ustring) :=
  [ (EM_DASH, u "-");
    (EN_DASH, u "-");
    (0x2018%N, u "'");
    (0x2019%N, u "'");
    (0x201C%N, [34%N]);
    (0x201D%N, [34%N]);
    (0x2026%N, u "...");
    (0x00A0%N, u " ") ].

(** [s.replace(old, new)] for a one-character [old]. *)
Definition str_replace (old : codepoint) (new : ustring) (s : ustring) : ustring :=
  flat_map (fun c => if (c =? old)%N then new else [c]) s.

Definition hex_digit (d : N) : codepoint :=
  if (d <? 10)%N then (48 + d)%N else (87 + d)%N.

(** The last [width] lowercase hexadecimal digits of [c]. *)
Fixpoint hex_fixed (width : nat) (c : N) : ustring :=
  match width with
  | O => []
  | S w => hex_fixed w (c / 16)%N ++ [hex_digit (c mod 16)%N]
  end.

(** The [backslashreplace] error handler on one unencodable code point. *)
Definition backslashreplace (c : codepoint) : ustring :=
  if (c <? 0x100)%N then u "\x" ++ hex_fixed 2 c
  else if (c <? 0x10000)%N then u "\u" ++ hex_fixed 4 c
  else u "\U" ++ hex_fixed 8 c.

(** [s.encode('ascii', 'backslashreplace').decode('ascii')]. *)
Definition encode_ascii_backslashreplace (s : ustring) : ustring :=
  flat_map (fun c => if is_ascii c then [c] else backslashreplace c) s.

Section Sanitizer.

(** [unicodedata.normalize('NFKC', .)], from Python's standard library. *)
Variable nfkc : ustring -> ustring.

(** The builtin [str()] on an object that is not a [str], taken where it
    returns a text: the interpreter refuses an [int] beyond its digit limit
    and an object nested beyond its recursion limit. The properties about
    prompts and pages that write a field with [str] take the field to be a
    text. *)
Variable str_of_object : pyval -> ustring.

Definition py_str (v : pyval) : ustring :=
  match v with
  | PyStr s => s
  | _ => str_of_object v
  end.

Definition sanitize_text (s : pyval) : ustring :=
  if negb (truthy s) then []
  else
    let s := nfkc (py_str s) in
    let s := fold_left (fun acc r => str_replace (fst r) (snd r) acc) replacements s in
    encode_ascii_backslashreplace s.

End Sanitizer.

(* ================================================================== *)
(** ** Credential check: [AIAnalyzer.__init__] *)
(* ================================================================== *)

Record analyzer : Type := { api_key : ustring; model : ustring }.

Definition MSG_NOT_SET : ustring := u "OPENAI_API_KEY is not set".

Definition MSG_DASH : ustring :=
  u "OPENAI_API_KEY contains em-dash or en-dash characters that break HTTP headers. "
  ++ u "Please reset your OPENAI_API_KEY with a clean ASCII key (avoid copying from "
  ++ u "documents with smart punctuation).".

Definition MSG_NON_ASCII : ustring :=
  u "OPENAI_API_KEY contains non-ASCII characters that break HTTP headers. "
  ++ u "Please reset your OPENAI_API_KEY with a clean ASCII key.".

Definition contains (c : codepoint) (s : ustring) : bool :=
  existsb (fun x => (x =? c)%N) s.

(** [api_key.encode('ascii')] raises [UnicodeEncodeError] exactly when some
    code point is not ASCII. *)
Definition encodes_as_ascii (s : ustring) : bool := forallb is_ascii s.

(** [env_key] is [os.getenv("OPENAI_API_KEY")]: [None] when the variable is
    not set. The message logged in the handler has no part in the result. *)
Definition AIAnalyzer_init (env_key : option ustring) : result analyzer :=
  match env_key with
  | None => Raise (RuntimeError MSG_NOT_SET)
  | Some [] => Raise (RuntimeError MSG_NOT_SET)
  | Some key =>
      if encodes_as_ascii key then
        Ok {| api_key := key; model := u "gpt-5" |}
      else if contains EM_DASH key || contains EN_DASH key then
        Raise (RuntimeError MSG_DASH)
      else
        Raise (RuntimeError MSG_NON_ASCII)
  end.

(* ================================================================== *)
(** ** Python numbers *)
(* ================================================================== *)

(** The double nearest to an integer, ties to even. *)
Definition nearest_float (z : Z) : float :=
  SF2Prim (binary_normalize 53 1024 z 0 false).

(** An [int] as a [float] (as [float * int] converts it): the nearest
    double; an [int] beyond the doubles raises. *)
Definition float_of_int (z : Z) : result float :=
  let f := nearest_float z in
  if is_infinity f then Raise OverflowError else Ok f.

(** The operand of an arithmetic operation with a [float] on the other
    side: [bool] is a subclass of [int]. *)
Definition as_float (v : pyval) : result float :=
  match v with
  | PyFloat f => Ok f
  | PyInt z => float_of_int z
  | PyBool b => Ok (if b then 1 else 0)%float
  | _ => Raise TypeError
  end.

(** [int(f)]: truncation toward zero. *)
Definition int_of_float (f : float) : result Z :=
  match Prim2SF f with
  | S754_zero _ => Ok 0%Z
  | S754_finite sx m e =>
      let a := match e with
               | Zneg p => Z.shiftr (Zpos m) (Zpos p)
               | _ => Z.shiftl (Zpos m) e
               end in
      Ok (if sx then - a else a)%Z
  | S754_infinity _ => Raise OverflowError
  | S754_nan => Raise ValueError
  end.

(** The integer nearest to [m * 2^e * scale], ties to even. *)
Definition scaled_half_even (m : positive) (e : Z) (scale : Z) : Z :=
  match e with
  | Zneg p =>
      let d := Z.shiftl 1 (Zpos p) in
      let (q, r) := Z.div_eucl (Zpos m * scale) d in
      match (2 * r ?= d)%Z with
      | Lt => q
      | Gt => (q + 1)%Z
      | Eq => if Z.even q then q else (q + 1)%Z
      end
  | _ => (Z.shiftl (Zpos m) e * scale)%Z
  end.

(** The double nearest to [a / b], ties to even, with sign [sx]. *)
Definition nearest_quotient (sx : bool) (a b : positive) : float :=
  let s := (Zpos (digits2_pos b) + 64)%Z in
  let (q, r) := Z.div_eucl (Z.shiftl (Zpos a) s) (Zpos b) in
  let l := if (r =? 0)%Z then loc_Exact else loc_Inexact (2 * r ?= Zpos b)%Z in
  SF2Prim (binary_round_aux 53 1024 sx q (- s) l).

(** [round(f, 1)] on a float: the decimal with one digit after the point
    nearest to the exact value of [f] (ties to even), read back as a double;
    zeros, infinities and NaN round to themselves. *)
Definition round_1 (f : float) : float :=
  match Prim2SF f with
  | S754_finite sx m e =>
      match scaled_half_even m e 10 with
      | Zpos k => nearest_quotient sx k 10
      | _ => if sx then (-0)%float else 0%float
      end
  | _ => f
  end.

(** [round(f)] with no digits, on a finite float: the nearest integer,
    ties to even. *)
Definition round_0 (f : float) : result Z :=
  match Prim2SF f with
  | S754_zero _ => Ok 0%Z
  | S754_finite sx m e =>
      let k := scaled_half_even m e 1 in Ok (if sx then - k else k)%Z
  | S754_infinity _ => Raise OverflowError
  | S754_nan => Raise ValueError
  end.

(* ================================================================== *)
(** ** The remote model and its responses *)
(* ================================================================== *)

(** [response.choices[0].message], read through [getattr(msg, name, None)]:
    an absent attribute and an attribute that is [None] are both [PyNone]. *)
Record message : Type := { parsed : pyval; content : pyval }.

Record response : Type := { choices : list message }.

(** The four call sites of [self.openai_client.chat.completions.create]. *)
Inductive stage : Type :=
| StrategyStage
| RecommendationStage
| StoryStage
| BenefitsStage.

(** What [json.loads] does on a text: it returns the decoded value, raises
    [json.JSONDecodeError], or raises something else (a [RecursionError] on
    deep nesting). *)
Inductive json_outcome : Type :=
| Decoded (v : pyval)
| JSONDecodeError
| JSONRaises (e : exn).

(** The characters [str.strip()] removes ([str.isspace]). *)
Definition is_space (c : codepoint) : bool :=
  ((9 <=? c) && (c <=? 13) || (28 <=? c) && (c <=? 32) || (c =? 0x85) || (c =? 0xA0)
   || (c =? 0x1680) || (0x2000 <=? c) && (c <=? 0x200A) || (c =? 0x2028)
   || (c =? 0x2029) || (c =? 0x202F) || (c =? 0x205F) || (c =? 0x3000))%N.

(** [content.strip()] is a non-empty string. *)
Definition strip_nonempty (s : ustring) : bool := existsb (fun c => negb (is_space c)) s.

Definition EMPTY : pyval := PyDict [].

Definition kv (k : string) (v : pyval) : ustring * pyval := (u k, v).
Definition text (s : string) : pyval := PyStr (u s).

(* ------------------------------------------------------------------ *)
(** *** The pieces of the prompts that can raise

    The prompt text itself is not modelled: it only reaches the remote
    model. What is modelled is every step of rendering it that can raise,
    in the order the f-string evaluates them. *)

(** [v / 1e9], formatted with [:.1f]. *)
Definition fmt_billions (v : pyval) : result float :=
  f <- as_float v ;; Ok (f / 1e9)%float.

(** The interpreter writes an [int] in decimal only up to
    [sys.int_info.default_max_str_digits] digits. *)
Definition MAX_STR_DIGITS : nat := 4300.

(** [z], not negative, has at most [n] decimal digits. *)
Fixpoint fits_digits (n : nat) (z : Z) : bool :=
  match n with
  | O => (z =? 0)%Z
  | S k => if (z =? 0)%Z then true else fits_digits k (z / 10)
  end.

(** [v] formatted with [:,]: numbers only, and an [int] only within the
    digit limit; a [str] rejects the format specifier, the other objects
    reject any non-empty one. *)
Definition fmt_thousands (v : pyval) : result unit :=
  match v with
  | PyInt z => if fits_digits MAX_STR_DIGITS (Z.abs z) then Ok tt else Raise ValueError
  | PyBool _ | PyFloat _ => Ok tt
  | PyStr _ => Raise ValueError
  | _ => Raise TypeError
  end.

(** [v[:3]], then joined: sequences only. *)
Definition first_three (v : pyval) : result pyval :=
  match v with
  | PyList l => Ok (PyList (firstn 3 l))
  | PyStr s => Ok (PyStr (firstn 3 s))
  | _ => Raise TypeError
  end.

(** [[str(x) for x in v]]: iterables only. *)
Definition iterate (v : pyval) : result unit :=
  match v with
  | PyList _ | PyStr _ | PyDict _ => Ok tt
  | _ => Raise TypeError
  end.

(** Rendering the prompt of [_analyze_ai_strategy], up to the call. *)
Definition strategy_prompt (company_context : pyval) : result unit :=
  _ <- py_get company_context (u "name") (text "Unknown") ;;
  _ <- py_getitem company_context (u "sector") ;;
  _ <- py_getitem company_context (u "industry") ;;
  _ <- py_get company_context (u "business_summary") (text "") ;;
  _ <- py_getitem company_context (u "symbol") ;;
  market_cap <- py_getitem company_context (u "market_cap") ;;
  _ <- fmt_billions market_cap ;;
  employees <- py_getitem company_context (u "employees") ;;
  fmt_thousands employees.

(** Rendering the prompt of [_get_investment_recommendation]. *)
Definition recommendation_prompt (company_context ai_strategy : pyval) : result unit :=
  _ <- py_getitem company_context (u "name") ;;
  _ <- py_getitem company_context (u "sector") ;;
  _ <- py_getitem company_context (u "industry") ;;
  _ <- py_getitem company_context (u "symbol") ;;
  market_cap <- py_getitem company_context (u "market_cap") ;;
  _ <- fmt_billions market_cap ;;
  _ <- py_get ai_strategy (u "ai_maturity_score") (PyInt 5) ;;
  initiatives <- py_get ai_strategy (u "ai_initiatives") (PyList []) ;;
  _ <- first_three initiatives ;;
  advantages <- py_get ai_strategy (u "competitive_advantages") (PyList []) ;;
  _ <- first_three advantages ;;
  opportunities <- py_get ai_strategy (u "opportunities") (PyList []) ;;
  _ <- first_three opportunities ;;
  Ok tt.

(** Rendering the prompt of [_generate_ai_story]. *)
Definition story_prompt (company_context ai_strategy : pyval) : result unit :=
  _ <- py_getitem company_context (u "name") ;;
  _ <- py_getitem company_context (u "symbol") ;;
  initiatives <- py_get ai_strategy (u "ai_initiatives") (PyList []) ;;
  _ <- iterate initiatives ;;
  advantages <- py_get ai_strategy (u "competitive_advantages") (PyList []) ;;
  _ <- iterate advantages ;;
  opportunities <- py_get ai_strategy (u "opportunities") (PyList []) ;;
  _ <- iterate opportunities ;;
  streams <- py_get ai_strategy (u "revenue_streams") (PyList []) ;;
  iterate streams.

(* ------------------------------------------------------------------ *)
(** *** Static documents *)

Definition STRATEGY_FALLBACK : pyval :=
  PyDict [ kv "ai_initiatives" (PyList []);
           kv "competitive_advantages" (PyList []);
           kv "revenue_streams" (PyList []);
           kv "partnerships" (PyList []);
           kv "opportunities" (PyList []);
           kv "risks" (PyList []);
           kv "ai_maturity_score" (PyInt 5);
           kv "overall_assessment" (text "Unable to complete AI analysis at this time.") ].

Definition RECOMMENDATION_FALLBACK : pyval :=
  PyDict [ kv "action" (text "HOLD");
           kv "ai_score" (PyInt 5);
           kv "reasoning" (text "Unable to complete investment analysis at this time.");
           kv "key_catalysts" (PyList []);
           kv "risk_factors" (PyList []) ].

Definition METRICS_FALLBACK : pyval :=
  PyDict [ kv "ai_revenue_exposure" (PyInt 0);
           kv "ai_partnerships" (PyInt 0);
           kv "ai_patents" (PyInt 0);
           kv "ai_investment_score" (PyInt 5) ].

Definition STORY_FALLBACK : pyval :=
  PyDict [ kv "strategy_summary" (text "AI strategy analysis not available at this time.");
           kv "use_cases" (PyList []);
           kv "opportunities" (PyList []);
           kv "competitive_advantages" (PyList []) ].

Definition sector_ai_multipliers : list (ustring * float) :=
  [ (u "Technology", 1.5%float);
    (u "Communication Services", 1.2%float);
    (u "Consumer Cyclical", 1.0%float);
    (u "Healthcare", 1.1%float);
    (u "Financial Services", 1.1%float);
    (u "Industrials", 0.8%float);
    (u "Consumer Defensive", 0.7%float) ].

Fixpoint table_get (k : ustring) (t : list (ustring * float)) (default : float) : float :=
  match t with
  | [] => default
  | (k', m) :: t' => if ustring_eqb k k' then m else table_get k t' default
  end.

(** [sector_ai_multipliers.get(sector, 0.8)]: a list or a dict is not
    hashable; no other object than a [str] equals a key of the table. *)
Definition sector_multiplier (sector : pyval) : result float :=
  match sector with
  | PyStr s => Ok (table_get s sector_ai_multipliers 0.8%float)
  | PyList _ | PyDict _ => Raise TypeError
  | _ => Ok 0.8%float
  end.

(** [min(100, x)] with [x] a float: [x] when [x < 100], else the int 100. *)
Definition min_100 (x : float) : pyval :=
  if (x <? 100)%float then PyFloat x else PyInt 100.

(** [round(v, 1)] on the value [min] returned. *)
Definition py_round_1 (v : pyval) : pyval :=
  match v with
  | PyFloat f => PyFloat (round_1 f)
  | _ => v
  end.

(** [int(ai_score * 10)]. An object that is no number never reaches this
    line: [base_exposure * ai_score] has raised on it before. *)
Definition int_times_10 (ai_score : pyval) : result Z :=
  match ai_score with
  | PyInt z => Ok (z * 10)%Z
  | PyBool b => Ok (if b then 10 else 0)%Z
  | PyFloat f => int_of_float (f * 10)%float
  | _ => Raise TypeError
  end.

(* ================================================================== *)
(** ** The analysis orchestrator *)
(* ================================================================== *)

Section Orchestrator.

(** [json.loads], from Python's standard library. *)
Variable json_loads : ustring -> json_outcome.

(** [self.openai_client.chat.completions.create] at each call site: it
    raises or returns a response. A run calls each site at most once, and
    the properties below hold for every [create], so what the answer owes
    to the prompt is left to [create]. *)
Variable create : stage -> result response.

(** [datetime.now().isoformat()]. *)
Variable timestamp : ustring.

(** [_parse_openai_json] *)
Definition parse_openai_json (r : response) : result pyval :=
  match choices r with
  | [] => Raise IndexError
  | msg :: _ =>
      match parsed msg with
      | PyNone =>
          match content msg with
          | PyStr c =>
              if strip_nonempty c then
                match json_loads c with
                | Decoded v => Ok v
                | JSONDecodeError => Ok EMPTY
                | JSONRaises e => Raise e
                end
              else Ok EMPTY
          | _ => Ok EMPTY
          end
      | p => Ok p
      end
  end.

(** [_prepare_company_context] *)
Definition prepare_company_context (symbol company_info : pyval) : result pyval :=
  name <- py_get company_info (u "longName") (text "Unknown") ;;
  sector <- py_get company_info (u "sector") (text "Unknown") ;;
  industry <- py_get company_info (u "industry") (text "Unknown") ;;
  business_summary <- py_get company_info (u "longBusinessSummary") (text "") ;;
  market_cap <- py_get company_info (u "marketCap") (PyInt 0) ;;
  employees <- py_get company_info (u "fullTimeEmployees") (PyInt 0) ;;
  revenue <- py_get company_info (u "totalRevenue") (PyInt 0) ;;
  website <- py_get company_info (u "website") (text "") ;;
  country <- py_get company_info (u "country") (text "Unknown") ;;
  Ok (PyDict [ kv "symbol" symbol; kv "name" name; kv "sector" sector;
               kv "industry" industry; kv "business_summary" business_summary;
               kv "market_cap" market_cap; kv "employees" employees;
               kv "revenue" revenue; kv "website" website; kv "country" country ]).

(** The [try] block of [_analyze_ai_strategy]. *)
Definition analyze_ai_strategy_body (company_context : pyval) : result pyval :=
  _ <- strategy_prompt company_context ;;
  response <- create StrategyStage ;;
  result <- parse_openai_json response ;;
  if truthy result then
    _ <- py_len result ;;
    Ok result
  else Ok EMPTY.

(** [_analyze_ai_strategy] *)
Definition analyze_ai_strategy (company_context : pyval) : pyval :=
  try_except (analyze_ai_strategy_body company_context) (fun _ => STRATEGY_FALLBACK).

(** The [try] block of [_get_investment_recommendation]. *)
Definition get_investment_recommendation_body (company_context ai_strategy : pyval)
  : result pyval :=
  _ <- recommendation_prompt company_context ai_strategy ;;
  response <- create RecommendationStage ;;
  parse_openai_json response.

(** [_get_investment_recommendation] *)
Definition get_investment_recommendation (company_context ai_strategy : pyval) : pyval :=
  try_except (get_investment_recommendation_body company_context ai_strategy)
             (fun _ => RECOMMENDATION_FALLBACK).

(** The [try] block of [_calculate_ai_metrics]. *)
Definition calculate_ai_metrics_body (company_context ai_strategy : pyval) : result pyval :=
  ai_score <- py_get ai_strategy (u "ai_maturity_score") (PyInt 5) ;;
  sector <- py_getitem company_context (u "sector") ;;
  base_exposure <- sector_multiplier sector ;;
  initiatives <- py_get ai_strategy (u "ai_initiatives") (PyList []) ;;
  ai_initiatives_count <- py_len initiatives ;;
  score <- as_float ai_score ;;
  bonus <- float_of_int (ai_initiatives_count * 5) ;;
  let estimated_ai_exposure := min_100 (base_exposure * score * 2 + bonus)%float in
  partners <- py_get ai_strategy (u "partnerships") (PyList []) ;;
  partnerships <- py_len partners ;;
  scaled <- int_times_10 ai_score ;;
  let estimated_patents := Z.max 0 (scaled + partnerships * 5) in
  Ok (PyDict [ kv "ai_revenue_exposure" (py_round_1 estimated_ai_exposure);
               kv "ai_partnerships" (PyInt partnerships);
               kv "ai_patents" (PyInt estimated_patents);
               kv "ai_investment_score" ai_score ]).

(** [_calculate_ai_metrics] *)
Definition calculate_ai_metrics (company_context ai_strategy : pyval) : pyval :=
  try_except (calculate_ai_metrics_body company_context ai_strategy)
             (fun _ => METRICS_FALLBACK).

(** The [try] block of [_generate_ai_story]. *)
Definition generate_ai_story_body (company_context ai_strategy : pyval) : result pyval :=
  _ <- story_prompt company_context ai_strategy ;;
  response <- create StoryStage ;;
  parse_openai_json response.

(** [_generate_ai_story] *)
Definition generate_ai_story (company_context ai_strategy : pyval) : pyval :=
  try_except (generate_ai_story_body company_context ai_strategy)
             (fun _ => STORY_FALLBACK).

(** [_get_default_analysis] *)
Definition get_default_analysis : pyval :=
  PyDict [ kv "investment_recommendation"
             (PyDict [ kv "action" (text "HOLD");
                       kv "ai_score" (PyInt 5);
                       kv "reasoning" (text "AI analysis not available at this time.");
                       kv "key_catalysts" (PyList []);
                       kv "risk_factors" (PyList []) ]);
           kv "ai_metrics"
             (PyDict [ kv "ai_revenue_exposure" (PyInt 0);
                       kv "ai_partnerships" (PyInt 0);
                       kv "ai_patents" (PyInt 0);
                       kv "ai_investment_score" (PyInt 5) ]);
           kv "ai_story"
             (PyDict [ kv "strategy_summary" (text "AI analysis not available.");
                       kv "use_cases" (PyList []);
                       kv "opportunities" (PyList []);
                       kv "competitive_advantages" (PyList []) ]);
           kv "analysis_timestamp" (PyStr timestamp) ].

(** [analyze_ai_potential]. The four stage functions catch every
    exception themselves, so they are plain values here. *)
Definition analyze_ai_potential (symbol company_info : pyval) : pyval :=
  try_except
    (company_context <- prepare_company_context symbol company_info ;;
     _ <- py_get company_context (u "name") (text "Unknown") ;;
     let ai_strategy_analysis := analyze_ai_strategy company_context in
     let investment_recommendation :=
       get_investment_recommendation company_context ai_strategy_analysis in
     let ai_metrics := calculate_ai_metrics company_context ai_strategy_analysis in
     let ai_story := generate_ai_story company_context ai_strategy_analysis in
     Ok (PyDict [ kv "investment_recommendation" investment_recommendation;
                  kv "ai_metrics" ai_metrics;
                  kv "ai_story" ai_story;
                  kv "analysis_timestamp" (PyStr timestamp) ]))
    (fun _ => get_default_analysis).

(** [_get_default_401k_analysis] *)
Definition get_default_401k_analysis : pyval :=
  PyDict [ kv "overview"
             (PyDict [ kv "match_percentage" (PyInt 0);
                       kv "max_match_salary_percent" (PyInt 0);
                       kv "vesting_period" (text "Unknown");
                       kv "roth_available" (PyBool false);
                       kv "company_size" (text "Unknown");
                       kv "industry_rating" (text "Unknown") ]);
           kv "recommendation"
             (PyDict [ kv "optimization_score" (PyInt 5);
                       kv "primary_advice" (text "401K analysis not available at this time.");
                       kv "key_actions" (PyList []);
                       kv "urgency_level" (text "medium") ]);
           kv "contribution_strategy"
             (PyDict [ kv "recommended_contribution_percent" (PyInt 10);
                       kv "annual_savings_potential" (text "Not calculated");
                       kv "tax_optimization" (text "Consult with financial advisor");
                       kv "recommended_actions"
                         (PyList [ text "Contribute enough to get company match" ]) ]);
           kv "roth_analysis"
             (PyDict [ kv "recommendation" (text "Traditional");
                       kv "reasoning" (text "Analysis not available");
                       kv "age_considerations" (text "Consider your current tax bracket");
                       kv "tax_bracket_impact" (text "Consult tax professional") ]);
           kv "fund_options"
             (PyDict [ kv "fund_categories" (PyList []);
                       kv "recommended_funds" (PyList []);
                       kv "expense_ratio_analysis" (text "Unknown");
                       kv "diversification_advice"
                         (text "Diversify investments across asset classes") ]);
           kv "additional_benefits"
             (PyDict [ kv "other_benefits" (PyList []);
                       kv "financial_wellness_perks" (PyList []);
                       kv "catch_up_contributions" (text "Check if available for 50+");
                       kv "loan_provisions" (text "Check plan details") ]);
           kv "analysis_timestamp" (PyStr timestamp) ].

(** [_get_default_401k_benefits] *)
Definition get_default_401k_benefits : pyval :=
  PyDict [ kv "overview"
             (PyDict [ kv "match_percentage" (PyInt 0);
                       kv "max_match_salary_percent" (PyInt 0);
                       kv "vesting_period" (text "Unknown");
                       kv "roth_available" (PyBool false);
                       kv "company_size" (text "Unknown");
                       kv "industry_rating" (text "Unknown") ]);
           kv "recommendation"
             (PyDict [ kv "optimization_score" (PyInt 5);
                       kv "primary_advice" (text "401K analysis temporarily unavailable.");
                       kv "key_actions"
                         (PyList [ text "Contribute at least enough to get company match";
                                   text "Review plan documents" ]);
                       kv "urgency_level" (text "medium") ]);
           kv "contribution_strategy"
             (PyDict [ kv "recommended_contribution_percent" (PyInt 10);
                       kv "annual_savings_potential" (text "Not calculated");
                       kv "tax_optimization" (text "Standard tax-deferred benefits apply");
                       kv "recommended_actions"
                         (PyList [ text "Start with company match";
                                   text "Increase contributions annually" ]) ]);
           kv "roth_analysis"
             (PyDict [ kv "recommendation" (text "Traditional");
                       kv "reasoning" (text "Default recommendation for tax-deferred savings");
                       kv "age_considerations"
                         (text "Younger employees may benefit from Roth options");
                       kv "tax_bracket_impact"
                         (text "Consider current vs expected future tax rates") ]);
           kv "fund_options"
             (PyDict [ kv "fund_categories"
                         (PyList [ text "Target Date Funds"; text "Index Funds";
                                   text "Bond Funds" ]);
                       kv "recommended_funds"
                         (PyList [ text "Low-cost index funds";
                                   text "Target-date funds for simplicity" ]);
                       kv "expense_ratio_analysis"
                         (text "Look for funds with expense ratios under 0.5%");
                       kv "diversification_advice"
                         (text "Mix of stocks, bonds, and international exposure") ]);
           kv "additional_benefits"
             (PyDict [ kv "other_benefits" (PyList [ text "Standard 401k benefits" ]);
                       kv "financial_wellness_perks" (PyList [ text "Online planning tools" ]);
                       kv "catch_up_contributions"
                         (text "Available for employees 50 and older");
                       kv "loan_provisions" (text "Check with HR for loan availability") ]) ].

(** The [try] block of [_analyze_401k_benefits]; interpolating
    [company_name] into the prompt cannot raise. *)
Definition analyze_401k_benefits_body (company_name : pyval) : result pyval :=
  response <- create BenefitsStage ;;
  result <- parse_openai_json response ;;
  if truthy result then
    _ <- py_len result ;;
    Ok result
  else Ok EMPTY.

(** [_analyze_401k_benefits] *)
Definition analyze_401k_benefits (company_name : pyval) : pyval :=
  try_except (analyze_401k_benefits_body company_name)
             (fun _ => get_default_401k_benefits).

(** [analyze_company_401k] *)
Definition analyze_company_401k (company_name : pyval) : pyval :=
  try_except
    (let analysis_result := analyze_401k_benefits company_name in
     overview <- py_get analysis_result (u "overview") EMPTY ;;
     recommendation <- py_get analysis_result (u "recommendation") EMPTY ;;
     contribution_strategy <- py_get analysis_result (u "contribution_strategy") EMPTY ;;
     roth_analysis <- py_get analysis_result (u "roth_analysis") EMPTY ;;
     fund_options <- py_get analysis_result (u "fund_options") EMPTY ;;
     additional_benefits <- py_get analysis_result (u "additional_benefits") EMPTY ;;
     Ok (PyDict [ kv "overview" overview;
                  kv "recommendation" recommendation;
                  kv "contribution_strategy" contribution_strategy;
                  kv "roth_analysis" roth_analysis;
                  kv "fund_options" fund_options;
                  kv "additional_benefits" additional_benefits;
                  kv "analysis_timestamp" (PyStr timestamp) ]))
    (fun _ => get_default_401k_analysis).

End Orchestrator.

(* ================================================================== *)
(** ** The formulas of the specification and sample collaborators *)
(* ================================================================== *)

(** The specification's patent estimate, in its words:
    [max(0, round(ai_maturity_score * 10) + count(partnerships) * 5)]. *)
Definition spec_estimated_patents (ai_maturity_score : float) (partnerships : Z) : result Z :=
  r <- round_0 (ai_maturity_score * 10)%float ;;
  Ok (Z.max 0 (r + partnerships * 5)).

(** The specification's revenue exposure, in its words:
    [min(100, sector_multiplier * ai_maturity_score * 2 + count(ai_initiatives) * 5)],
    rounded to one decimal. *)
Definition spec_ai_revenue_exposure
  (sector_multiplier ai_maturity_score : float) (initiatives : Z) : float :=
  let x := (sector_multiplier * ai_maturity_score * 2 + nearest_float (initiatives * 5))%float in
  round_1 (if (x <? 100)%float then x else 100%float).

(** The numeric value of a number object, as a float. *)
Definition number_value (v : pyval) : option float :=
  match as_float v with
  | Ok f => Some f
  | Raise _ => None
  end.

(** A normalizer that agrees with NFKC on the code points it lists
    (ellipsis, no-break space, the fi ligature) and leaves the rest alone. *)
Definition nfkc_sample (s : ustring) : ustring :=
  flat_map (fun c =>
              if (c =? 0x2026)%N then u "..."
              else if (c =? 0x00A0)%N then u " "
              else if (c =? 0xFB01)%N then u "fi"
              else [c]) s.

(** [str()] on the constants; the other objects are not rendered. *)
Definition str_sample (v : pyval) : ustring :=
  match v with
  | PyNone => u "None"
  | PyBool true => u "True"
  | PyBool false => u "False"
  | _ => []
  end.

(** The text [{"action": "BUY"}] and the mapping it denotes. *)
Definition buy_text : ustring :=
  u "{" ++ [34%N] ++ u "action" ++ [34%N] ++ u ": " ++ [34%N] ++ u "BUY" ++ [34%N] ++ u "}".

Definition buy_document : pyval := PyDict [ kv "action" (text "BUY") ].

(** The text [{"overview": {"match_percentage": 50}}] and its mapping. *)
Definition overview_text : ustring :=
  u "{" ++ [34%N] ++ u "overview" ++ [34%N] ++ u ": {" ++ [34%N] ++ u "match_percentage"
    ++ [34%N] ++ u ": 50}}".

Definition overview_document : pyval :=
  PyDict [ kv "overview" (PyDict [ kv "match_percentage" (PyInt 50) ]) ].

(** A decoder that knows three texts, and reports every other as
    malformed. *)
Definition json_loads_sample (s : ustring) : json_outcome :=
  if ustring_eqb s (u "{}") then Decoded EMPTY
  else if ustring_eqb s buy_text then Decoded buy_document
  else if ustring_eqb s overview_text then Decoded overview_document
  else JSONDecodeError.

(** A response with one message. *)
Definition respond (p c : pyval) : result response :=
  Ok {| choices := [ {| parsed := p; content := c |} ] |}.

(** A remote model that is down. *)
Definition create_down (_ : stage) : result response :=
  Raise (APIError (u "Connection error.")).

(** A remote model that fails the AI-strategy call and answers the others. *)
Definition create_strategy_down (s : stage) : result response :=
  match s with
  | StrategyStage => Raise (APIError (u "Request timed out."))
  | RecommendationStage => respond PyNone (PyStr buy_text)
  | _ => respond PyNone (text "{}")
  end.

(** A remote model whose every answer is a text that is no JSON. *)
Definition create_malformed (_ : stage) : result response :=
  respond PyNone (text "I cannot answer that.").



(** The fields a market-data mapping holds for a company. *)
Definition info_sample : list (ustring * pyval) :=
  [ kv "longName" (text "Acme Corp");
    kv "sector" (text "Technology");
    kv "marketCap" (PyInt 2500000000);
    kv "fullTimeEmployees" (PyInt 1200) ].

(** [d.get(k, default)] on the entries of a dict. *)
Definition lookup_or (d : list (ustring * pyval)) (k : string) (default : pyval) : pyval :=
  match assoc (u k) d with
  | Some v => v
  | None => default
  end.

(** The company context [_prepare_company_context] builds from the entries
    [info] of the market-data mapping. *)
Definition context_of (symbol : pyval) (info : list (ustring * pyval)) : pyval :=
  PyDict [ kv "symbol" symbol;
           kv "name" (lookup_or info "longName" (text "Unknown"));
           kv "sector" (lookup_or info "sector" (text "Unknown"));
           kv "industry" (lookup_or info "industry" (text "Unknown"));
           kv "business_summary" (lookup_or info "longBusinessSummary" (text ""));
           kv "market_cap" (lookup_or info "marketCap" (PyInt 0));
           kv "employees" (lookup_or info "fullTimeEmployees" (PyInt 0));
           kv "revenue" (lookup_or info "totalRevenue" (PyInt 0));
           kv "website" (lookup_or info "website" (text ""));
           kv "country" (lookup_or info "country" (text "Unknown")) ].

Definition context_sample : pyval := context_of (text "ACME") info_sample.

(** A strategy object with a score and lists of the given entries. *)
Definition strategy_with (score : pyval) (initiatives partnerships : list pyval) : pyval :=
  PyDict [ kv "ai_initiatives" (PyList initiatives);
           kv "partnerships" (PyList partnerships);
           kv "ai_maturity_score" score ].


(** The recommendation is one of the two static ones: HOLD with score 5,
    a fixed reasoning and empty lists. *)
Definition recommendation_static (recommendation : pyval) : Prop :=
  exists reasoning,
    recommendation = PyDict [ kv "action" (text "HOLD");
                              kv "ai_score" (PyInt 5);
                              kv "reasoning" (PyStr reasoning);
                              kv "key_catalysts" (PyList []);
                              kv "risk_factors" (PyList []) ].

(** The story is one of the two static ones: a fixed summary and empty
    lists. *)
Definition story_static (story : pyval) : Prop :=
  exists summary,
    story = PyDict [ kv "strategy_summary" (PyStr summary);
                     kv "use_cases" (PyList []);
                     kv "opportunities" (PyList []);
                     kv "competitive_advantages" (PyList []) ].



(** The 401k result assembled from the entries [d] of the analysis: each
    section is the one of [d], or the empty mapping. *)
Definition sections_of (d : list (ustring * pyval)) (timestamp : ustring) : pyval :=
  PyDict [ kv "overview" (lookup_or d "overview" EMPTY);
           kv "recommendation" (lookup_or d "recommendation" EMPTY);
           kv "contribution_strategy" (lookup_or d "contribution_strategy" EMPTY);
           kv "roth_analysis" (lookup_or d "roth_analysis" EMPTY);
           kv "fund_options" (lookup_or d "fund_options" EMPTY);
           kv "additional_benefits" (lookup_or d "additional_benefits" EMPTY);
           kv "analysis_timestamp" (PyStr timestamp) ].

(** The top-level keys of a stock-mode result. *)
Definition RESULT_KEYS : list ustring :=
  [ u "investment_recommendation"; u "ai_metrics"; u "ai_story"; u "analysis_timestamp" ].


Definition timestamp_sample : ustring := u "2025-08-07T12:00:00".

(** A mixed-script text: "sk-", an em dash, three kanji, an ellipsis, a
    Cyrillic letter and an en dash. *)
Definition mixed_text : ustring :=
  u "sk-" ++ [0x2014; 0x65E5; 0x672C; 0x8A9E; 0x2026; 0x0416; 0x2013]%N.

(* ================================================================== *)
(** ** Further code: logging, the views of the dashboard, market data *)
(* ================================================================== *)

(** [safe_log]: the line handed to [logger.info], appended to the lines
    logged so far. [sanitize_text] raises no [UnicodeEncodeError], so the
    handler of [safe_log] is never entered. *)
Definition safe_log (nfkc : ustring -> ustring) (str_of_object : pyval -> ustring)
  (msg : pyval) (logged : list ustring) : list ustring :=
  logged ++ [sanitize_text nfkc str_of_object msg].

(** What the eight replacements followed by the encoding make of one code
    point: its entry in [replacements], itself when it is ASCII, its escape
    otherwise. *)
Fixpoint replacement_of (c : codepoint) (t : list (codepoint * ustring)) : option ustring :=
  match t with
  | [] => None
  | (k, a) :: t' => if (c =? k)%N then Some a else replacement_of c t'
  end.

Definition sanitize_char (c : codepoint) : ustring :=
  match replacement_of c replacements with
  | Some a => a
  | None => if is_ascii c then [c] else backslashreplace c
  end.

(** Reading an escape back: the value of a hexadecimal digit, of a run of
    digits, and of an escape [\x..], [\u....] or [\U........]. *)
Definition hex_digit_value (d : codepoint) : N :=
  if (d <? 58)%N then (d - 48)%N else (d - 87)%N.

Definition hex_value (digits : ustring) : N :=
  fold_left (fun acc d => (acc * 16 + hex_digit_value d)%N) digits 0%N.

Definition unescape (s : ustring) : option codepoint :=
  match s with
  | 92%N :: tag :: digits =>
      if ((tag =? 120) || (tag =? 117) || (tag =? 85))%N then Some (hex_value digits)
      else None
  | _ => None
  end.

(** [v >= n] for a small int literal [n] (here 8 and 6, which are doubles):
    numbers compare by value, any other object raises. *)
Definition py_ge_int (v : pyval) (n : Z) : result bool :=
  match v with
  | PyInt z => Ok (n <=? z)%Z
  | PyBool b => Ok (n <=? (if b then 1 else 0))%Z
  | PyFloat f => Ok (nearest_float n <=? f)%float
  | _ => Raise TypeError
  end.

(** The status block of [display_401k_results] (app.py): the score read
    from the analysis, the colour and the status shown with it. *)
Definition optimization_status (analysis : pyval) : result (pyval * ustring * ustring) :=
  recommendation <- py_get analysis (u "recommendation") EMPTY ;;
  rec_score <- py_get recommendation (u "optimization_score") (PyInt 5) ;;
  excellent <- py_ge_int rec_score 8 ;;
  if excellent then Ok (rec_score, u "green", u "Excellent")
  else
    good <- py_ge_int rec_score 6 ;;
    if good then Ok (rec_score, u "orange", u "Good")
    else Ok (rec_score, u "red", u "Needs Improvement").

(** What the status block shows for the default score 5. *)
Definition NEEDS_IMPROVEMENT : result (pyval * ustring * ustring) :=
  Ok (PyInt 5, u "red", u "Needs Improvement").

(** The colours the recommendation block can show. *)
Definition GREEN : ustring := u "green".
Definition ORANGE : ustring := u "orange".
Definition RED : ustring := u "red".
Definition GRAY : ustring := u "gray".

(** The colour table of [display_analysis_results] (app.py). *)
Definition color_map : list (ustring * ustring) :=
  [ (u "BUY", u "green"); (u "HOLD", u "orange"); (u "SELL", u "red") ].

Fixpoint color_get (k : ustring) (t : list (ustring * ustring)) (default : ustring) : ustring :=
  match t with
  | [] => default
  | (k', c) :: t' => if ustring_eqb k k' then c else color_get k t' default
  end.

(** The recommendation block of [display_analysis_results]: the action
    shown and its colour. A list or a dict is not hashable; no other object
    than a [str] equals a key of the table. *)
Definition recommendation_badge (ai_analysis : pyval) : result (pyval * ustring) :=
  recommendation <- py_get ai_analysis (u "investment_recommendation") EMPTY ;;
  rec_action <- py_get recommendation (u "action") (text "HOLD") ;;
  match rec_action with
  | PyStr s => Ok (rec_action, color_get s color_map (u "gray"))
  | PyList _ | PyDict _ => Raise TypeError
  | _ => Ok (rec_action, u "gray")
  end.


(** Market data whose market capitalisation is null. *)
Definition info_null_cap : list (ustring * pyval) :=
  [ kv "longName" (text "Acme Fund"); kv "marketCap" PyNone ].

(** The keys of a 401k result. *)
Definition BENEFIT_KEYS : list ustring :=
  [ u "overview"; u "recommendation"; u "contribution_strategy"; u "roth_analysis";
    u "fund_options"; u "additional_benefits"; u "analysis_timestamp" ].

(** [p in s] for two strings: [p] occurs in [s]. *)
Fixpoint starts_with (p s : ustring) : bool :=
  match p, s with
  | [], _ => true
  | x :: p', y :: s' => (x =? y)%N && starts_with p' s'
  | _ :: _, [] => false
  end.

Fixpoint has_substring (p s : ustring) : bool :=
  starts_with p s
  || match s with
     | [] => false
     | _ :: s' => has_substring p s'
     end.

(** [key in v] for a string [key]: a key of a dict, an element of a list,
    a substring of a string; the other objects are not containers. *)
Definition py_contains (key : ustring) (v : pyval) : result bool :=
  match v with
  | PyDict d => Ok (match assoc key d with Some _ => true | None => false end)
  | PyList l =>
      Ok (existsb (fun x => match x with PyStr s => ustring_eqb s key | _ => false end) l)
  | PyStr s => Ok (has_substring key s)
  | _ => Raise TypeError
  end.

Section MarketData.

(** A pandas [DataFrame], its [.empty] and the frame [pd.DataFrame()]. *)
Variable frame : Type.
Variable frame_empty : frame -> bool.
Variable empty_frame : frame.

(** A [yfinance] ticker: each attribute is fetched when it is read, and
    reading it may raise. *)
Record ticker : Type := {
  tk_info : result pyval;
  tk_history : ustring -> result frame;
  tk_quarterly_financials : result frame;
  tk_balance_sheet : result frame;
  tk_cashflow : result frame
}.

(** [yf.Ticker(symbol)] *)
Variable Ticker : pyval -> result ticker.

(** The mapping [get_stock_data] returns. *)
Record stock_data : Type := {
  sd_info : pyval;
  sd_price_data : frame;
  sd_quarterly_financials : frame;
  sd_balance_sheet : frame;
  sd_cash_flow : frame
}.

(** The inner [try] of [get_stock_data]: the three statements, or three
    empty frames when any of them raises. *)
Definition financial_frames (t : ticker) : frame * frame * frame :=
  try_except
    (quarterly_financials <- tk_quarterly_financials t ;;
     balance_sheet <- tk_balance_sheet t ;;
     cash_flow <- tk_cashflow t ;;
     Ok (quarterly_financials, balance_sheet, cash_flow))
    (fun _ => (empty_frame, empty_frame, empty_frame)).

(** [not info or 'symbol' not in info] *)
Definition info_unusable (info : pyval) : result bool :=
  if negb (truthy info) then Ok true
  else has <- py_contains (u "symbol") info ;; Ok (negb has).

(** [StockDataFetcher.get_stock_data]; [None] is Python's [None]. *)
Definition get_stock_data (symbol : pyval) (period : ustring) : option stock_data :=
  try_except
    (t <- Ticker symbol ;;
     info <- tk_info t ;;
     unusable <- info_unusable info ;;
     if unusable then Ok None
     else
       hist_data <- tk_history t period ;;
       if frame_empty hist_data then Ok None
       else
         let '(quarterly_financials, balance_sheet, cash_flow) := financial_frames t in
         Ok (Some {| sd_info := info;
                     sd_price_data := hist_data;
                     sd_quarterly_financials := quarterly_financials;
                     sd_balance_sheet := balance_sheet;
                     sd_cash_flow := cash_flow |}))
    (fun _ => None).

(** [StockDataFetcher.validate_symbol]:
    [bool(info and 'symbol' in info and info.get('longName'))]. *)
Definition validate_symbol (symbol : pyval) : bool :=
  try_except
    (t <- Ticker symbol ;;
     info <- tk_info t ;;
     if negb (truthy info) then Ok false
     else
       has <- py_contains (u "symbol") info ;;
       if negb has then Ok false
       else
         long_name <- py_get info (u "longName") PyNone ;;
         Ok (truthy long_name))
    (fun _ => false).

(** [StockDataFetcher.get_company_name] *)
Definition get_company_name (symbol : pyval) : pyval :=
  try_except
    (t <- Ticker symbol ;;
     info <- tk_info t ;;
     py_get info (u "longName") PyNone)
    (fun _ => PyNone).

(** [StockDataFetcher.get_sector_and_industry] *)
Definition get_sector_and_industry (symbol : pyval) : pyval * pyval :=
  try_except
    (t <- Ticker symbol ;;
     info <- tk_info t ;;
     sector <- py_get info (u "sector") PyNone ;;
     industry <- py_get info (u "industry") PyNone ;;
     Ok (sector, industry))
    (fun _ => (PyNone, PyNone)).

(* ------------------------------------------------------------------ *)
(** *** [handle_stock_analysis] (app.py) *)

(** What the handler puts on the page: an [st.error] message, a call of
    [display_analysis_results], the welcome text. *)
Inductive ui_event : Type :=
| StError (msg : ustring)
| DisplayCalled (data : stock_data) (analysis : pyval)
| Welcome.

(** The two entries of [st.session_state] the handler uses. *)
Record session : Type := {
  analysis_data : option pyval;
  stored_stock_data : option stock_data
}.

Variable json_loads : ustring -> json_outcome.
Variable create : stage -> result response.
Variable timestamp : ustring.

(** [os.getenv("OPENAI_API_KEY")] *)
Variable env_key : option ustring.

(** [display_analysis_results]: it draws with Streamlit and may raise. *)
Variable display_analysis_results : stock_data -> pyval -> result unit.

(** [str(e)] for an exception that is no [RuntimeError] built from one
    message. *)
Variable describe : exn -> ustring.

Definition exception_text (e : exn) : ustring :=
  match e with
  | RuntimeError msg => msg
  | _ => describe e
  end.

Definition CROSS_MARK : ustring := [0x274C%N].

Definition MSG_INVALID_SYMBOL : ustring :=
  CROSS_MARK
  ++ u " Invalid stock symbol or no data available. Please check the symbol and try again.".

Definition MSG_ANALYSIS_ERROR (e : exn) : ustring :=
  CROSS_MARK ++ u " Error during analysis: " ++ exception_text e.

Fixpoint option_get (k : ustring) (t : list (ustring * ustring)) : result ustring :=
  match t with
  | [] => Raise KeyError
  | (k', v) :: t' => if ustring_eqb k k' then Ok v else option_get k t'
  end.

(** The [try] block of the first branch: the session it leaves and the
    events it puts on the page before it ends or raises. An exception
    keeps what was stored and shown before it. *)
Definition analyze_and_show (s : session) (stock_symbol selected_period : ustring)
  (period_options : list (ustring * ustring)) : session * list ui_event :=
  match AIAnalyzer_init env_key with
  | Raise e => (s, [StError (MSG_ANALYSIS_ERROR e)])
  | Ok _ =>
      match option_get selected_period period_options with
      | Raise e => (s, [StError (MSG_ANALYSIS_ERROR e)])
      | Ok period =>
          match get_stock_data (PyStr stock_symbol) period with
          | None => (s, [StError MSG_INVALID_SYMBOL])
          | Some data =>
              let ai_analysis :=
                analyze_ai_potential json_loads create timestamp (PyStr stock_symbol)
                  (sd_info data) in
              let s' := {| analysis_data := Some ai_analysis;
                           stored_stock_data := Some data |} in
              match display_analysis_results data ai_analysis with
              | Ok _ => (s', [DisplayCalled data ai_analysis])
              | Raise e => (s', [DisplayCalled data ai_analysis;
                                 StError (MSG_ANALYSIS_ERROR e)])
              end
          end
      end
  end.

(** [handle_stock_analysis]. The second branch shows the stored analysis
    outside any [try]: an exception of the display leaves the handler. *)
Definition handle_stock_analysis (s : session) (stock_symbol selected_period : ustring)
  (period_options : list (ustring * ustring)) (analyze_button : bool)
  : result (session * list ui_event) :=
  if analyze_button && truthy (PyStr stock_symbol) then
    Ok (analyze_and_show s stock_symbol selected_period period_options)
  else
    match analysis_data s, stored_stock_data s with
    | Some analysis, Some data =>
        if truthy analysis then
          _ <- display_analysis_results data analysis ;;
          Ok (s, [DisplayCalled data analysis])
        else Ok (s, [Welcome])
    | _, _ => Ok (s, [Welcome])
    end.

End MarketData.

Arguments tk_info {frame} t.
Arguments tk_history {frame} t period.
Arguments tk_quarterly_financials {frame} t.
Arguments tk_balance_sheet {frame} t.
Arguments tk_cashflow {frame} t.
Arguments sd_info {frame} s.
Arguments sd_price_data {frame} s.
Arguments sd_quarterly_financials {frame} s.
Arguments sd_balance_sheet {frame} s.
Arguments sd_cash_flow {frame} s.
Arguments analysis_data {frame} s.
Arguments stored_stock_data {frame} s.
Arguments StError {frame} msg.
Arguments DisplayCalled {frame} data analysis.
Arguments Welcome {frame}.
Arguments financial_frames {frame} empty_frame t.
Arguments get_stock_data {frame} frame_empty empty_frame Ticker symbol period.
Arguments validate_symbol {frame} Ticker symbol.
Arguments get_company_name {frame} Ticker symbol.
Arguments get_sector_and_industry {frame} Ticker symbol.
Arguments analyze_and_show {frame}.
Arguments handle_stock_analysis {frame}.

(** Sample market data: frames are lists of closing prices. *)
Definition frame_sample : Type := list Z.

Definition frame_sample_empty (f : frame_sample) : bool :=
  match f with
  | [] => true
  | _ => false
  end.

(** A ticker with company information and prices, whose quarterly
    financials cannot be fetched. *)
Definition ticker_acme : ticker frame_sample :=
  {| tk_info := Ok (PyDict (kv "symbol" (text "ACME") :: info_sample));
     tk_history := fun _ => Ok [101; 102; 99]%Z;
     tk_quarterly_financials := Raise (APIError (u "No fundamentals data found"));
     tk_balance_sheet := Ok [1]%Z;
     tk_cashflow := Ok [2]%Z |}.

(** A ticker of an unknown symbol: information without a symbol, no
    prices. *)
Definition ticker_unknown : ticker frame_sample :=
  {| tk_info := Ok (PyDict [ kv "trailingPegRatio" PyNone ]);
     tk_history := fun _ => Ok [];
     tk_quarterly_financials := Ok [];
     tk_balance_sheet := Ok [];
     tk_cashflow := Ok [] |}.

Definition Ticker_sample (symbol : pyval) : result (ticker frame_sample) :=
  match symbol with
  | PyStr s => if ustring_eqb s (u "ACME") then Ok ticker_acme else Ok ticker_unknown
  | _ => Raise TypeError
  end.

Definition period_options_sample : list (ustring * ustring) :=
  [ (u "1 Month", u "1mo"); (u "3 Months", u "3mo"); (u "6 Months", u "6mo");
    (u "1 Year", u "1y"); (u "2 Years", u "2y") ].

Definition session_empty : session frame_sample :=
  {| analysis_data := None; stored_stock_data := None |}.

(** A display that draws without raising, and a description of exceptions
    by a fixed text. *)
Definition display_sample (_ : stock_data frame_sample) (_ : pyval) : result unit := Ok tt.

Definition describe_sample (_ : exn) : ustring := u "error".

(** The data [get_stock_data] returns for the sample ticker: its quarterly
    financials raise, so the three statements are empty. *)
Definition data_acme : stock_data frame_sample :=
  {| sd_info := PyDict (kv "symbol" (text "ACME") :: info_sample);
     sd_price_data := [101; 102; 99]%Z;
     sd_quarterly_financials := [];
     sd_balance_sheet := [];
     sd_cash_flow := [] |}.

(** A well-formed body that holds an integer of 4301 digits, and a decoder
    that refuses it as [json.loads] does ([ValueError]: the integer exceeds
    the limit for conversion from text); on any other body it is
    [json_loads_sample]. *)
Definition long_integer_text : ustring := u "[1" ++ repeat 48%N 4300 ++ u "]".

Definition json_loads_digit_limit (s : ustring) : json_outcome :=
  if ustring_eqb s long_integer_text then JSONRaises ValueError else json_loads_sample s.


(** A value that is a text: [str] returns it as it is. *)
Definition is_text (v : pyval) : bool :=
  match v with
  | PyStr _ => true
  | _ => false
  end.

(** The fields of the market data that the strategy prompt writes with
    [str], each with the default [_prepare_company_context] gives it, are
    texts. *)
Definition text_fields (symbol : pyval) (info : list (ustring * pyval)) : bool :=
  is_text symbol
  && is_text (lookup_or info "longName" (text "Unknown"))
  && is_text (lookup_or info "sector" (text "Unknown"))
  && is_text (lookup_or info "industry" (text "Unknown"))
  && is_text (lookup_or info "longBusinessSummary" (text "")).

(** Market data with an employee count of 4301 digits. *)
Definition info_long_count : list (ustring * pyval) :=
  [ kv "longName" (text "Acme Corp");
    kv "marketCap" (PyInt 2500000000);
    kv "fullTimeEmployees" (PyInt (10 ^ Z.of_nat MAX_STR_DIGITS)) ].

(** What [display_401k_results] shows down to the status block: the
    company match, the vesting period, whether a Roth plan is available, the
    maximal match, then the score, the colour and the status. *)
Definition display_401k_top (analysis : pyval)
  : result (pyval * pyval * bool * pyval * (pyval * ustring * ustring)) :=
  overview <- py_get analysis (u "overview") EMPTY ;;
  match_rate <- py_get overview (u "match_percentage") (PyInt 0) ;;
  vesting_period <- py_get overview (u "vesting_period") (text "Unknown") ;;
  roth_available <- py_get overview (u "roth_available") (PyBool false) ;;
  max_match <- py_get overview (u "max_match_salary_percent") (PyInt 0) ;;
  shown <- optimization_status analysis ;;
  Ok (match_rate, vesting_period, truthy roth_available, max_match, shown).

(** What the display shows for the default sections. *)
Definition TOP_401K_DEFAULT
  : result (pyval * pyval * bool * pyval * (pyval * ustring * ustring)) :=
  Ok (PyInt 0, text "Unknown", false, PyInt 0,
      (PyInt 5, u "red", u "Needs Improvement")).

(** A remote model whose 401k answer has a text for its overview. *)
Definition create_overview_text (_ : stage) : result response :=
  respond (PyDict [ kv "overview" (text "n/a") ]) PyNone.

(** [v] formatted with [:.2f]: numbers only, an [int] through its float; a
    [str] rejects the format code, the other objects any format. *)
Definition fmt_fixed (v : pyval) : result float :=
  match v with
  | PyStr _ => Raise ValueError
  | _ => as_float v
  end.

(** [v > n] for an integer [n] that is a double (here 0 and 1e9): numbers
    compare by value, any other object raises. *)
Definition py_gt_int (v : pyval) (n : Z) : result bool :=
  match v with
  | PyInt z => Ok (n <? z)%Z
  | PyBool b => Ok (n <? (if b then 1 else 0))%Z
  | PyFloat f => Ok (nearest_float n <? f)%float
  | _ => Raise TypeError
  end.

(** [v / 1e6], formatted with one decimal. *)
Definition fmt_millions (v : pyval) : result float :=
  f <- as_float v ;; Ok (f / 1e6)%float.

(** The header of [display_analysis_results]: the name line, the current
    price, and the market capitalisation when it is positive. *)
Definition display_header (company_info : pyval) : result unit :=
  _ <- py_get company_info (u "longName") (text "Unknown Company") ;;
  _ <- py_get company_info (u "symbol") (text "N/A") ;;
  _ <- py_get company_info (u "sector") (text "N/A") ;;
  _ <- py_get company_info (u "industry") (text "N/A") ;;
  current_price <- py_get company_info (u "currentPrice") (PyInt 0) ;;
  _ <- fmt_fixed current_price ;;
  market_cap <- py_get company_info (u "marketCap") (PyInt 0) ;;
  positive <- py_gt_int market_cap 0 ;;
  if positive then
    large <- py_gt_int market_cap 1000000000 ;;
    _ <- (if large then fmt_billions market_cap else fmt_millions market_cap) ;;
    Ok tt
  else Ok tt.

(** [display_analysis_results] down to the recommendation block. *)
Definition display_analysis_top (company_info ai_analysis : pyval)
  : result (pyval * ustring) :=
  _ <- display_header company_info ;;
  recommendation_badge ai_analysis.

(** The fields the header writes with [str], each with its default, are
    texts. *)
Definition header_texts (info : list (ustring * pyval)) : bool :=
  is_text (lookup_or info "longName" (text "Unknown Company"))
  && is_text (lookup_or info "symbol" (text "N/A"))
  && is_text (lookup_or info "sector" (text "N/A"))
  && is_text (lookup_or info "industry" (text "N/A")).

(** Market data whose current price is null. *)
Definition info_null_price : list (ustring * pyval) :=
  [ kv "longName" (text "Acme Fund"); kv "currentPrice" PyNone;
    kv "marketCap" (PyInt 2500000000) ].

(* ================================================================== *)
(** ** Properties of the sanitizer *)
(* ================================================================== *)

Definition pure_ascii (s : ustring) : Prop := forallb is_ascii s = true.

Lemma ustring_eqb_eq (a b : ustring) : ustring_eqb a b = true <-> a = b.
Proof.
  revert b; induction a as [|x a IH]; intros [|y b]; simpl; split; intro H;
    try reflexivity; try discriminate.
  - apply andb_prop in H as [Hx Ha]. apply N.eqb_eq in Hx. apply IH in Ha. congruence.
  - injection H as -> ->. rewrite N.eqb_refl. simpl. now apply IH.
Qed.

Lemma forallb_flat_map {A B} (p : B -> bool) (f : A -> list B) (l : list A) :
  (forall a, forallb p (f a) = true) -> forallb p (flat_map f l) = true.
Proof.
  intro H. induction l as [|a l IH]; simpl; [reflexivity|].
  rewrite forallb_app, H, IH. reflexivity.
Qed.

Lemma hex_digit_ascii (d : N) : (d < 16)%N -> is_ascii (hex_digit d) = true.
Proof.
  intro H. unfold hex_digit, is_ascii.
  destruct (d <? 10)%N eqn:E; apply N.ltb_lt; [apply N.ltb_lt in E|]; lia.
Qed.

Lemma hex_fixed_ascii (w : nat) (c : N) : pure_ascii (hex_fixed w c).
Proof.
  unfold pure_ascii. revert c; induction w as [|w IH]; intro c; simpl; [reflexivity|].
  rewrite forallb_app, IH. simpl.
  rewrite hex_digit_ascii; [reflexivity|]. apply N.mod_lt. discriminate.
Qed.

Lemma backslashreplace_ascii (c : codepoint) : pure_ascii (backslashreplace c).
Proof.
  unfold pure_ascii, backslashreplace.
  destruct (c <? 256)%N; [|destruct (c <? 65536)%N];
    rewrite forallb_app, hex_fixed_ascii; reflexivity.
Qed.

Lemma encode_is_ascii (s : ustring) : pure_ascii (encode_ascii_backslashreplace s).
Proof.
  apply forallb_flat_map. intro c. destruct (is_ascii c) eqn:E.
  - simpl. now rewrite E.
  - apply backslashreplace_ascii.
Qed.

Lemma encode_ascii_id (s : ustring) : pure_ascii s -> encode_ascii_backslashreplace s = s.
Proof.
  unfold pure_ascii. induction s as [|c s IH]; simpl; [reflexivity|].
  intro H. apply andb_prop in H as [Hc Hs]. rewrite Hc. simpl. now rewrite IH.
Qed.

Lemma str_replace_ascii_id (old : codepoint) (new s : ustring) :
  is_ascii old = false -> pure_ascii s -> str_replace old new s = s.
Proof.
  unfold pure_ascii. intro Hold. induction s as [|c s IH]; simpl; [reflexivity|].
  intro H. apply andb_prop in H as [Hc Hs].
  destruct (c =? old)%N eqn:E.
  - apply N.eqb_eq in E. congruence.
  - simpl. now rewrite IH.
Qed.

Lemma replacements_ascii_id (s : ustring) :
  pure_ascii s ->
  fold_left (fun acc r => str_replace (fst r) (snd r) acc) replacements s = s.
Proof.
  intro H. unfold replacements. simpl.
  repeat rewrite (str_replace_ascii_id _ _ s) by (reflexivity || assumption).
  reflexivity.
Qed.

Lemma sanitize_text_ascii nfkc str_of_object (v : pyval) :
  pure_ascii (sanitize_text nfkc str_of_object v).
Proof.
  unfold sanitize_text. destruct (negb (truthy v)); [reflexivity|apply encode_is_ascii].
Qed.

Lemma nfkc_sample_ascii (s : ustring) : pure_ascii s -> nfkc_sample s = s.
Proof.
  unfold pure_ascii. induction s as [|c s IH]; simpl; [reflexivity|].
  intro H. apply andb_prop in H as [Hc Hs]. rewrite (IH Hs).
  unfold is_ascii in Hc. apply N.ltb_lt in Hc.
  destruct (c =? 8230)%N eqn:E1; [apply N.eqb_eq in E1; lia|].
  destruct (c =? 160)%N eqn:E2; [apply N.eqb_eq in E2; lia|].
  destruct (c =? 64257)%N eqn:E3; [apply N.eqb_eq in E3; lia|].
  reflexivity.
Qed.

(** C1. For every Unicode text [x], sanitizing twice gives what sanitizing
    once gives, and the sanitized text holds ASCII code points only. NFKC
    normalization belongs to Python's library; what is used of it is that
    it leaves an ASCII text unchanged. *)
Theorem sanitize_idempotent_ascii
  (nfkc : ustring -> ustring) (str_of_object : pyval -> ustring)
  (nfkc_ascii : forall s, pure_ascii s -> nfkc s = s) (x : ustring) :
  let sanitize := fun s => sanitize_text nfkc str_of_object (PyStr s) in
  sanitize (sanitize x) = sanitize x /\ pure_ascii (sanitize x).
Proof.
  cbv zeta. split; [|apply sanitize_text_ascii].
  pose proof (sanitize_text_ascii nfkc str_of_object (PyStr x)) as H.
  remember (sanitize_text nfkc str_of_object (PyStr x)) as y eqn:Ey. clear Ey.
  unfold sanitize_text. destruct y as [|c y]; [reflexivity|].
  cbn [truthy negb py_str].
  rewrite (nfkc_ascii _ H), (replacements_ascii_id _ H). now apply encode_ascii_id.
Qed.

Lemma sanitize_idempotent_ascii_witness :
  sanitize_text nfkc_sample str_sample
    (PyStr (sanitize_text nfkc_sample str_sample (PyStr mixed_text)))
  = sanitize_text nfkc_sample str_sample (PyStr mixed_text)
  /\ pure_ascii (sanitize_text nfkc_sample str_sample (PyStr mixed_text)).
Proof.
  exact (sanitize_idempotent_ascii nfkc_sample str_sample nfkc_sample_ascii mixed_text).
Defined.

Example sanitize_mixed_text :
  sanitize_text nfkc_sample str_sample (PyStr mixed_text)
  = u "sk--\u65e5\u672c\u8a9e...\u0416-".
Proof. vm_compute. reflexivity. Qed.

(** C10. On a falsy input (None, the empty string, a numeric zero, and any
    other object whose truth value is false) [sanitize_text] returns the
    empty string. *)
Theorem sanitize_falsy_empty
  (nfkc : ustring -> ustring) (str_of_object : pyval -> ustring) (v : pyval) :
  truthy v = false -> sanitize_text nfkc str_of_object v = [].
Proof.
  intro H. unfold sanitize_text. now rewrite H.
Qed.

Lemma sanitize_falsy_empty_witness :
  sanitize_text nfkc_sample str_sample PyNone = []
  /\ sanitize_text nfkc_sample str_sample (PyStr []) = []
  /\ sanitize_text nfkc_sample str_sample (PyInt 0) = []
  /\ sanitize_text nfkc_sample str_sample (PyFloat 0) = [].
Proof.
  split; [|split; [|split]];
    apply (sanitize_falsy_empty nfkc_sample str_sample); reflexivity.
Defined.

(* ================================================================== *)
(** ** Properties of the credential check *)
(* ================================================================== *)

Lemma contains_In (c : codepoint) (s : ustring) : contains c s = true <-> In c s.
Proof.
  unfold contains. rewrite existsb_exists. split.
  - intros [x [Hx E]]. apply N.eqb_eq in E. now subst.
  - intro H. exists c. split; [assumption|apply N.eqb_refl].
Qed.

Lemma not_contains (c : codepoint) (s : ustring) : ~ In c s -> contains c s = false.
Proof.
  intro H. destruct (contains c s) eqn:E; [|reflexivity].
  apply contains_In in E. contradiction.
Qed.

Lemma not_ascii_member (c : codepoint) (s : ustring) :
  In c s -> (128 <= c)%N -> encodes_as_ascii s = false.
Proof.
  intros Hin Hc. destruct (encodes_as_ascii s) eqn:E; [|reflexivity].
  unfold encodes_as_ascii in E. rewrite forallb_forall in E.
  specialize (E c Hin). unfold is_ascii in E. apply N.ltb_lt in E. lia.
Qed.

Lemma init_nonempty (key : ustring) :
  key <> [] ->
  AIAnalyzer_init (Some key) =
    if encodes_as_ascii key then Ok {| api_key := key; model := u "gpt-5" |}
    else if contains EM_DASH key || contains EN_DASH key
         then Raise (RuntimeError MSG_DASH)
         else Raise (RuntimeError MSG_NON_ASCII).
Proof. destruct key; [congruence|reflexivity]. Qed.

(** C2. At construction: a credential that holds an em dash or an en dash
    raises the dash-specific error; a credential with some other non-ASCII
    character raises the generic non-ASCII error, whose message differs; a
    non-empty pure-ASCII credential constructs the analyzer; a missing
    credential raises. *)
Theorem init_credential_check (key : ustring) :
  (In EM_DASH key \/ In EN_DASH key ->
   AIAnalyzer_init (Some key) = Raise (RuntimeError MSG_DASH))
  /\ (~ In EM_DASH key -> ~ In EN_DASH key ->
      (exists c, In c key /\ (128 <= c)%N) ->
      AIAnalyzer_init (Some key) = Raise (RuntimeError MSG_NON_ASCII))
  /\ (key <> [] -> pure_ascii key ->
      AIAnalyzer_init (Some key) = Ok {| api_key := key; model := u "gpt-5" |})
  /\ AIAnalyzer_init None = Raise (RuntimeError MSG_NOT_SET)
  /\ MSG_DASH <> MSG_NON_ASCII.
Proof.
  repeat split.
  - intro H.
    assert (Hne : key <> []) by (destruct H as [H|H]; intros ->; exact H).
    rewrite (init_nonempty _ Hne).
    assert (Hna : encodes_as_ascii key = false)
      by (destruct H as [H|H]; apply (not_ascii_member _ _ H); vm_compute; discriminate).
    rewrite Hna.
    destruct H as [H|H]; apply contains_In in H; rewrite H;
      [reflexivity|now rewrite orb_true_r].
  - intros Hem Hen [c [Hin Hc]].
    assert (Hne : key <> []) by (intros ->; exact Hin).
    rewrite (init_nonempty _ Hne), (not_ascii_member _ _ Hin Hc).
    now rewrite (not_contains _ _ Hem), (not_contains _ _ Hen).
  - intros Hne Hascii. rewrite (init_nonempty _ Hne).
    unfold pure_ascii in Hascii. unfold encodes_as_ascii. now rewrite Hascii.
  - vm_compute. discriminate.
Qed.

Lemma init_credential_check_witness :
  AIAnalyzer_init (Some (u "sk-abc" ++ [0x2014%N] ++ u "def"))
    = Raise (RuntimeError MSG_DASH)
  /\ AIAnalyzer_init (Some (u "sk-" ++ [0x65E5; 0x672C; 0x8A9E]%N))
     = Raise (RuntimeError MSG_NON_ASCII)
  /\ AIAnalyzer_init (Some (u "sk-valid123"))
     = Ok {| api_key := u "sk-valid123"; model := u "gpt-5" |}.
Proof.
  split; [|split].
  - apply (proj1 (init_credential_check _)). left. vm_compute. tauto.
  - apply (proj1 (proj2 (init_credential_check _))).
    + vm_compute. intuition discriminate.
    + vm_compute. intuition discriminate.
    + exists 0x65E5%N. split; [vm_compute; tauto|vm_compute; discriminate].
  - apply (proj1 (proj2 (proj2 (init_credential_check _)))).
    + discriminate.
    + reflexivity.
Defined.

(* ================================================================== *)
(** ** The number model on examples *)
(* ================================================================== *)

Example round_1_exact : round_1 39 = 39%float.
Proof. vm_compute. reflexivity. Qed.

Example round_1_inexact : round_1 15.400000000000002 = 15.4%float.
Proof. vm_compute. reflexivity. Qed.

Example round_1_tie : round_1 0.25 = 0.2%float /\ round_1 0.75 = 0.8%float.
Proof. vm_compute. split; reflexivity. Qed.

Example round_1_below_tie : round_1 2.675 = 2.7%float /\ round_1 0.35 = 0.3%float.
Proof. vm_compute. split; reflexivity. Qed.

Example round_1_negative : round_1 (-0.04) = (-0)%float /\ round_1 (-7.26) = (-7.3)%float.
Proof. vm_compute. split; reflexivity. Qed.

Example round_1_large : round_1 1e300 = 1e300%float /\ round_1 1125899906842624.125 = 1125899906842624.125%float.
Proof. vm_compute. split; reflexivity. Qed.

Example int_of_float_truncates :
  int_of_float 77.5 = Ok 77%Z /\ int_of_float (-77.5) = Ok (-77)%Z /\ round_0 77.5 = Ok 78%Z.
Proof. vm_compute. repeat split; reflexivity. Qed.

Example float_of_int_examples :
  float_of_int 100 = Ok 100%float /\
  float_of_int (2 ^ 53 + 1) = Ok 9007199254740992%float /\
  float_of_int (2 ^ 1024) = Raise OverflowError.
Proof. vm_compute. repeat split; reflexivity. Qed.

(* ================================================================== *)
(** ** Properties of the response parser *)
(* ================================================================== *)

Lemma bind_ok {A B} (r : result A) (k : A -> result B) (b : B) :
  bind r k = Ok b -> exists a, r = Ok a /\ k a = Ok b.
Proof. destruct r as [a|e]; simpl; [eauto|discriminate]. Qed.

Lemma bind_raise {A B} (r : result A) (k : A -> result B) (e : exn) :
  r = Raise e -> bind r k = Raise e.
Proof. now intros ->. Qed.

(** Peels the successful steps off a chain of binds in hypothesis [H]. *)
Ltac peel H :=
  repeat (let a := fresh "a" in
          let E := fresh "E" in
          apply bind_ok in H as [a [E H]]).

(** A body the decoder rejects gives the empty mapping. *)
Lemma parse_rejected_body
  (json_loads : ustring -> json_outcome) (msg : message) (rest : list message)
  (body : ustring) :
  parsed msg = PyNone -> content msg = PyStr body ->
  json_loads body = JSONDecodeError ->
  parse_openai_json json_loads {| choices := msg :: rest |} = Ok EMPTY.
Proof.
  intros Hp Hc Hj. unfold parse_openai_json. cbn [choices].
  rewrite Hp, Hc, Hj. now destruct (strip_nonempty body).
Qed.

(* ================================================================== *)
(** ** Properties of the stock-mode stages *)
(* ================================================================== *)

Section StageFacts.

Variable json_loads : ustring -> json_outcome.
Variable create : stage -> result response.
Variable timestamp : ustring.

Lemma prepare_dict (symbol : pyval) (info : list (ustring * pyval)) :
  prepare_company_context symbol (PyDict info) = Ok (context_of symbol info).
Proof. reflexivity. Qed.

Lemma prepare_not_dict (symbol company_info : pyval) :
  (forall info, company_info <> PyDict info) ->
  prepare_company_context symbol company_info = Raise AttributeError.
Proof. intro H. destruct company_info; try reflexivity. now elim (H d). Qed.

Lemma analyze_ai_potential_dict (symbol : pyval) (info : list (ustring * pyval)) :
  analyze_ai_potential json_loads create timestamp symbol (PyDict info) =
  let company_context := context_of symbol info in
  let ai_strategy_analysis := analyze_ai_strategy json_loads create company_context in
  PyDict [ kv "investment_recommendation"
             (get_investment_recommendation json_loads create company_context
                ai_strategy_analysis);
           kv "ai_metrics" (calculate_ai_metrics company_context ai_strategy_analysis);
           kv "ai_story"
             (generate_ai_story json_loads create company_context ai_strategy_analysis);
           kv "analysis_timestamp" (PyStr timestamp) ].
Proof. reflexivity. Qed.

Lemma analyze_ai_potential_not_dict (symbol company_info : pyval) :
  (forall info, company_info <> PyDict info) ->
  analyze_ai_potential json_loads create timestamp symbol company_info
  = get_default_analysis timestamp.
Proof.
  intro H. unfold analyze_ai_potential.
  now rewrite (prepare_not_dict symbol company_info H).
Qed.

Lemma dict_or_not (v : pyval) : (exists d, v = PyDict d) \/ (forall d, v <> PyDict d).
Proof. destruct v; try (right; discriminate). left; eauto. Qed.

(** The result of the stock analysis always has its four top-level keys. *)
Lemma analyze_ai_potential_keys (symbol company_info : pyval) :
  keys (analyze_ai_potential json_loads create timestamp symbol company_info) = RESULT_KEYS.
Proof.
  destruct (dict_or_not company_info) as [[d ->]|H].
  - rewrite analyze_ai_potential_dict. reflexivity.
  - rewrite (analyze_ai_potential_not_dict _ _ H). reflexivity.
Qed.


Lemma strategy_call_raises (ctx : pyval) (e : exn) :
  create StrategyStage = Raise e ->
  analyze_ai_strategy json_loads create ctx = STRATEGY_FALLBACK.
Proof.
  intro H. unfold analyze_ai_strategy, analyze_ai_strategy_body.
  destruct (strategy_prompt ctx); cbn [bind]; [rewrite H|]; reflexivity.
Qed.


Lemma strategy_empty_parse (ctx : pyval) (r : response) :
  strategy_prompt ctx = Ok tt -> create StrategyStage = Ok r ->
  parse_openai_json json_loads r = Ok EMPTY ->
  analyze_ai_strategy json_loads create ctx = EMPTY.
Proof.
  intros Hp Hc Hr. unfold analyze_ai_strategy, analyze_ai_strategy_body.
  rewrite Hp. cbn [bind]. rewrite Hc. cbn [bind]. rewrite Hr. reflexivity.
Qed.

Lemma recommendation_call_raises (ctx strategy : pyval) (e : exn) :
  create RecommendationStage = Raise e ->
  get_investment_recommendation json_loads create ctx strategy = RECOMMENDATION_FALLBACK.
Proof.
  intro H. unfold get_investment_recommendation, get_investment_recommendation_body.
  destruct (recommendation_prompt ctx strategy); cbn [bind]; [rewrite H|]; reflexivity.
Qed.

(** The later stages read an empty strategy object as they read the
    fallback object: the defaults of their [get] calls are its values. *)
Lemma empty_strategy_reads_as_fallback (ctx : pyval) :
  get_investment_recommendation json_loads create ctx EMPTY
  = get_investment_recommendation json_loads create ctx STRATEGY_FALLBACK
  /\ calculate_ai_metrics ctx EMPTY = calculate_ai_metrics ctx STRATEGY_FALLBACK
  /\ generate_ai_story json_loads create ctx EMPTY
     = generate_ai_story json_loads create ctx STRATEGY_FALLBACK.
Proof. repeat split. Qed.

(** With the fallback strategy object the metrics carry the score 5. *)
Lemma metrics_of_fallback_score (ctx : pyval) :
  field (calculate_ai_metrics ctx STRATEGY_FALLBACK) "ai_investment_score"
  = Some (PyInt 5).
Proof.
  unfold calculate_ai_metrics, calculate_ai_metrics_body.
  change (py_get STRATEGY_FALLBACK (u "ai_maturity_score") (PyInt 5)) with (Ok (PyInt 5)).
  cbn [bind].
  destruct (py_getitem ctx (u "sector")) as [sector|]; [|reflexivity]. cbn [bind].
  destruct (sector_multiplier sector) as [m|]; [|reflexivity]. cbn [bind].
  vm_compute. reflexivity.
Qed.

End StageFacts.

(* ------------------------------------------------------------------ *)
(** *** Each stage against its own call and the parser *)

Lemma strategy_parser_raises
  (json_loads : ustring -> json_outcome) (create : stage -> result response)
  (ctx : pyval) (r : response) (e : exn) :
  create StrategyStage = Ok r -> parse_openai_json json_loads r = Raise e ->
  analyze_ai_strategy json_loads create ctx = STRATEGY_FALLBACK.
Proof.
  intros Hc Hp. unfold analyze_ai_strategy, analyze_ai_strategy_body.
  destruct (strategy_prompt ctx); cbn [bind try_except]; [|reflexivity].
  rewrite Hc. cbn [bind]. now rewrite Hp.
Qed.

Lemma recommendation_parser_raises
  (json_loads : ustring -> json_outcome) (create : stage -> result response)
  (ctx strategy : pyval) (r : response) (e : exn) :
  create RecommendationStage = Ok r -> parse_openai_json json_loads r = Raise e ->
  get_investment_recommendation json_loads create ctx strategy = RECOMMENDATION_FALLBACK.
Proof.
  intros Hc Hp. unfold get_investment_recommendation, get_investment_recommendation_body.
  destruct (recommendation_prompt ctx strategy); cbn [bind try_except]; [|reflexivity].
  rewrite Hc. cbn [bind]. now rewrite Hp.
Qed.

Lemma story_parser_raises
  (json_loads : ustring -> json_outcome) (create : stage -> result response)
  (ctx strategy : pyval) (r : response) (e : exn) :
  create StoryStage = Ok r -> parse_openai_json json_loads r = Raise e ->
  generate_ai_story json_loads create ctx strategy = STORY_FALLBACK.
Proof.
  intros Hc Hp. unfold generate_ai_story, generate_ai_story_body.
  destruct (story_prompt ctx strategy); cbn [bind try_except]; [|reflexivity].
  rewrite Hc. cbn [bind]. now rewrite Hp.
Qed.

Lemma benefits_parser_raises
  (json_loads : ustring -> json_outcome) (create : stage -> result response)
  (company_name : pyval) (r : response) (e : exn) :
  create BenefitsStage = Ok r -> parse_openai_json json_loads r = Raise e ->
  analyze_401k_benefits json_loads create company_name = get_default_401k_benefits.
Proof.
  intros Hc Hp. unfold analyze_401k_benefits, analyze_401k_benefits_body.
  rewrite Hc. cbn [bind]. now rewrite Hp.
Qed.





(** C8 (amended). On a response that carries a choice: the parser returns
    the pre-parsed payload when there is one; otherwise a non-blank text
    body that [json.loads] decodes gives the decoded value, and a body that
    [json.loads] rejects with [JSONDecodeError], a blank or empty body, or a
    body that is no text, gives the empty mapping, without raising. The
    parser does raise in two cases: any other exception of [json.loads] on
    the body leaves the parser as it is, and a response without a choice
    raises [IndexError]; in both, the stage that called the parser returns
    its fallback. *)
Theorem parse_openai_json_cases
  (json_loads : ustring -> json_outcome) (msg : message) (rest : list message) :
  let r := {| choices := msg :: rest |} in
  (parsed msg <> PyNone -> parse_openai_json json_loads r = Ok (parsed msg))
  /\ (forall body v,
        parsed msg = PyNone -> content msg = PyStr body ->
        strip_nonempty body = true -> json_loads body = Decoded v ->
        parse_openai_json json_loads r = Ok v)
  /\ (forall body,
        parsed msg = PyNone -> content msg = PyStr body ->
        json_loads body = JSONDecodeError ->
        parse_openai_json json_loads r = Ok EMPTY)
  /\ (forall body,
        parsed msg = PyNone -> content msg = PyStr body ->
        strip_nonempty body = false ->
        parse_openai_json json_loads r = Ok EMPTY)
  /\ (parsed msg = PyNone -> (forall body, content msg <> PyStr body) ->
      parse_openai_json json_loads r = Ok EMPTY)
  /\ (forall body e,
        parsed msg = PyNone -> content msg = PyStr body ->
        strip_nonempty body = true -> json_loads body = JSONRaises e ->
        parse_openai_json json_loads r = Raise e)
  /\ parse_openai_json json_loads {| choices := [] |} = Raise IndexError
  /\ (forall create ctx strategy company_name resp e,
        parse_openai_json json_loads resp = Raise e ->
        (create StrategyStage = Ok resp ->
         analyze_ai_strategy json_loads create ctx = STRATEGY_FALLBACK)
        /\ (create RecommendationStage = Ok resp ->
            get_investment_recommendation json_loads create ctx strategy
            = RECOMMENDATION_FALLBACK)
        /\ (create StoryStage = Ok resp ->
            generate_ai_story json_loads create ctx strategy = STORY_FALLBACK)
        /\ (create BenefitsStage = Ok resp ->
            analyze_401k_benefits json_loads create company_name
            = get_default_401k_benefits)).
Proof.
  cbv zeta. split; [|split; [|split; [|split; [|split; [|split; [|split]]]]]].
  - intro H. unfold parse_openai_json. cbn [choices].
    destruct (parsed msg); congruence.
  - intros body v Hp Hc Hs Hj. unfold parse_openai_json. cbn [choices].
    now rewrite Hp, Hc, Hs, Hj.
  - intros body. apply parse_rejected_body.
  - intros body Hp Hc Hs. unfold parse_openai_json. cbn [choices].
    now rewrite Hp, Hc, Hs.
  - intros Hp H. unfold parse_openai_json. cbn [choices]. rewrite Hp.
    destruct (content msg); try reflexivity. now elim (H s).
  - intros body e Hp Hc Hs Hj. unfold parse_openai_json. cbn [choices].
    now rewrite Hp, Hc, Hs, Hj.
  - reflexivity.
  - intros create ctx strategy company_name resp e H. repeat split; intro Hc.
    + exact (strategy_parser_raises json_loads create ctx resp e Hc H).
    + exact (recommendation_parser_raises json_loads create ctx strategy resp e Hc H).
    + exact (story_parser_raises json_loads create ctx strategy resp e Hc H).
    + exact (benefits_parser_raises json_loads create company_name resp e Hc H).
Qed.

Lemma parse_openai_json_cases_witness :
  (* a payload parsed by the transport *)
  parse_openai_json json_loads_sample
    {| choices := [ {| parsed := buy_document; content := PyNone |} ] |} = Ok buy_document
  (* a body the decoder accepts *)
  /\ parse_openai_json json_loads_sample
       {| choices := [ {| parsed := PyNone; content := PyStr buy_text |} ] |} = Ok buy_document
  (* a malformed body *)
  /\ parse_openai_json json_loads_sample
       {| choices := [ {| parsed := PyNone; content := text "{action: " |} ] |} = Ok EMPTY
  (* a blank body *)
  /\ parse_openai_json json_loads_sample
       {| choices := [ {| parsed := PyNone; content := text "  " |} ] |} = Ok EMPTY
  (* no body *)
  /\ parse_openai_json json_loads_sample
       {| choices := [ {| parsed := PyNone; content := PyNone |} ] |} = Ok EMPTY
  (* a body on which the decoder raises something else *)
  /\ parse_openai_json json_loads_digit_limit
       {| choices := [ {| parsed := PyNone; content := PyStr long_integer_text |} ] |}
     = Raise ValueError.
Proof.
  split; [|split; [|split; [|split; [|split]]]].
  - apply (proj1 (parse_openai_json_cases json_loads_sample
                    {| parsed := buy_document; content := PyNone |} [])).
    discriminate.
  - apply (proj1 (proj2 (parse_openai_json_cases json_loads_sample
                           {| parsed := PyNone; content := PyStr buy_text |} []))
             buy_text); reflexivity.
  - apply (proj1 (proj2 (proj2 (parse_openai_json_cases json_loads_sample
                                  {| parsed := PyNone; content := text "{action: " |} [])))
             (u "{action: ")); reflexivity.
  - apply (proj1 (proj2 (proj2 (proj2 (parse_openai_json_cases json_loads_sample
                                         {| parsed := PyNone; content := text "  " |} []))))
             (u "  ")); reflexivity.
  - apply (proj1 (proj2 (proj2 (proj2 (proj2
             (parse_openai_json_cases json_loads_sample
                {| parsed := PyNone; content := PyNone |} []))))));
      [reflexivity|discriminate].
  - apply (proj1 (proj2 (proj2 (proj2 (proj2 (proj2
             (parse_openai_json_cases json_loads_digit_limit
                {| parsed := PyNone; content := PyStr long_integer_text |} []))))))
             long_integer_text); vm_compute; reflexivity.
Defined.

(** C8, as stated, fails on two kinds of response: one without any choice,
    on which the parser raises [IndexError], and one whose body is
    well-formed JSON with an integer of 4301 digits, on which [json.loads]
    raises [ValueError] and so does the parser. *)
Lemma parser_raises_on_some_responses :
  parse_openai_json json_loads_sample {| choices := [] |} = Raise IndexError
  /\ parse_openai_json json_loads_digit_limit
       {| choices := [ {| parsed := PyNone; content := PyStr long_integer_text |} ] |}
     = Raise ValueError.
Proof. split; vm_compute; reflexivity. Qed.




(** C3 (amended). When the call to the remote model in the AI-strategy
    stage raises, [analyze_ai_potential] still returns a result with its
    four top-level keys, and [ai_metrics.ai_investment_score] is 5. The
    recommendation comes from a call of its own:
    [investment_recommendation.action] is HOLD when that call raises too. *)
Theorem strategy_call_raises_result
  (json_loads : ustring -> json_outcome) (create : stage -> result response)
  (timestamp : ustring) (symbol company_info : pyval) (e : exn) :
  create StrategyStage = Raise e ->
  let r := analyze_ai_potential json_loads create timestamp symbol company_info in
  keys r = RESULT_KEYS
  /\ (exists metrics,
        field r "ai_metrics" = Some metrics
        /\ field metrics "ai_investment_score" = Some (PyInt 5))
  /\ (forall e', create RecommendationStage = Raise e' ->
        exists recommendation,
          field r "investment_recommendation" = Some recommendation
          /\ field recommendation "action" = Some (text "HOLD")).
Proof.
  intros H r. subst r. split; [apply analyze_ai_potential_keys|].
  destruct (dict_or_not company_info) as [[d ->]|Hn].
  - rewrite analyze_ai_potential_dict. cbv zeta.
    rewrite (strategy_call_raises json_loads create _ e H).
    split.
    + eexists. split; [reflexivity|]. apply metrics_of_fallback_score.
    + intros e' H'. eexists. split; [reflexivity|].
      now rewrite (recommendation_call_raises json_loads create _ _ e' H').
  - rewrite (analyze_ai_potential_not_dict _ _ _ _ _ Hn).
    split; [|intros e' _]; eexists; split; reflexivity.
Qed.

Lemma strategy_call_raises_result_witness :
  keys (analyze_ai_potential json_loads_sample create_down timestamp_sample
          (text "ACME") (PyDict info_sample)) = RESULT_KEYS
  /\ (exists metrics,
        field (analyze_ai_potential json_loads_sample create_down timestamp_sample
                 (text "ACME") (PyDict info_sample)) "ai_metrics" = Some metrics
        /\ field metrics "ai_investment_score" = Some (PyInt 5))
  /\ (exists recommendation,
        field (analyze_ai_potential json_loads_sample create_down timestamp_sample
                 (text "ACME") (PyDict info_sample)) "investment_recommendation"
        = Some recommendation
        /\ field recommendation "action" = Some (text "HOLD")).
Proof.
  pose proof (strategy_call_raises_result json_loads_sample create_down timestamp_sample
                (text "ACME") (PyDict info_sample) (APIError (u "Connection error."))
                eq_refl) as [Hk [Hm Hr]].
  split; [exact Hk|split; [exact Hm|]].
  exact (Hr (APIError (u "Connection error.")) eq_refl).
Defined.

(** C3, as stated, fails when the strategy call raises and the
    recommendation call answers: the action is the one of the answer. *)
Lemma strategy_down_recommendation_buy :
  create_strategy_down StrategyStage = Raise (APIError (u "Request timed out."))
  /\ field (analyze_ai_potential json_loads_sample create_strategy_down timestamp_sample
              (text "ACME") (PyDict info_sample)) "investment_recommendation"
     = Some buy_document
  /\ field buy_document "action" = Some (text "BUY")
  /\ text "BUY" <> text "HOLD".
Proof. repeat split. discriminate. Qed.

(* ================================================================== *)
(** ** Properties of the derived metrics *)
(* ================================================================== *)

Lemma float_of_int_ok (z : Z) (f : float) : float_of_int z = Ok f -> f = nearest_float z.
Proof.
  unfold float_of_int. cbv zeta. destruct (is_infinity (nearest_float z)); congruence.
Qed.


(** What a run of the [try] block of [_calculate_ai_metrics] that reaches
    its [return] has computed. *)
Lemma metrics_body_inv (ctx strategy metrics : pyval) :
  calculate_ai_metrics_body ctx strategy = Ok metrics ->
  exists ai_score sector base_exposure initiatives count score partners partnerships scaled,
    py_get strategy (u "ai_maturity_score") (PyInt 5) = Ok ai_score
    /\ py_getitem ctx (u "sector") = Ok sector
    /\ sector_multiplier sector = Ok base_exposure
    /\ py_get strategy (u "ai_initiatives") (PyList []) = Ok initiatives
    /\ py_len initiatives = Ok count
    /\ as_float ai_score = Ok score
    /\ py_get strategy (u "partnerships") (PyList []) = Ok partners
    /\ py_len partners = Ok partnerships
    /\ int_times_10 ai_score = Ok scaled
    /\ metrics =
         PyDict [ kv "ai_revenue_exposure"
                    (py_round_1 (min_100 (base_exposure * score * 2
                                          + nearest_float (count * 5))%float));
                  kv "ai_partnerships" (PyInt partnerships);
                  kv "ai_patents" (PyInt (Z.max 0 (scaled + partnerships * 5)));
                  kv "ai_investment_score" ai_score ].
Proof.
  unfold calculate_ai_metrics_body. intro H.
  apply bind_ok in H as [ai_score [E1 H]].
  apply bind_ok in H as [sector [E2 H]].
  apply bind_ok in H as [base [E3 H]].
  apply bind_ok in H as [initiatives [E4 H]].
  apply bind_ok in H as [count [E5 H]].
  apply bind_ok in H as [score [E6 H]].
  apply bind_ok in H as [bonus [E7 H]].
  cbv zeta in H.
  apply bind_ok in H as [partners [E8 H]].
  apply bind_ok in H as [partnerships [E9 H]].
  apply bind_ok in H as [scaled [E10 H]].
  apply float_of_int_ok in E7. subst bonus.
  exists ai_score, sector, base, initiatives, count, score, partners, partnerships, scaled.
  repeat (split; [assumption|]). now inversion H.
Qed.


(** C5 (amended). When the metrics computation completes, [ai_patents] is
    [max(0, int(ai_maturity_score * 10) + count(partnerships) * 5)], where
    [int] truncates toward zero (it does not round); the score is 5 when the
    strategy object has none. When the computation raises, [ai_patents] is
    the fallback 0. A score of 6 with 2 partnerships gives 70. *)
Theorem patents_estimate (ctx strategy : pyval) :
  (forall metrics,
     calculate_ai_metrics_body ctx strategy = Ok metrics ->
     exists ai_score partners partnerships scaled,
       py_get strategy (u "ai_maturity_score") (PyInt 5) = Ok ai_score
       /\ py_get strategy (u "partnerships") (PyList []) = Ok partners
       /\ py_len partners = Ok partnerships
       /\ int_times_10 ai_score = Ok scaled
       /\ (forall z, ai_score = PyInt z -> scaled = (z * 10)%Z)
       /\ (forall f, ai_score = PyFloat f -> int_of_float (f * 10)%float = Ok scaled)
       /\ field (calculate_ai_metrics ctx strategy) "ai_patents"
          = Some (PyInt (Z.max 0 (scaled + partnerships * 5))))
  /\ (forall e,
        calculate_ai_metrics_body ctx strategy = Raise e ->
        field (calculate_ai_metrics ctx strategy) "ai_patents" = Some (PyInt 0))
  /\ field (calculate_ai_metrics context_sample
              (strategy_with (PyInt 6) [] [text "OpenAI"; text "NVIDIA"])) "ai_patents"
     = Some (PyInt 70).
Proof.
  split; [|split].
  - intros metrics H. unfold calculate_ai_metrics. rewrite H. cbn [try_except].
    apply metrics_body_inv in H
      as (ai_score & sector & base & ini & count & score & partners & p & scaled
          & E1 & _ & _ & _ & _ & _ & E7 & E8 & E9 & ->).
    exists ai_score, partners, p, scaled.
    repeat (split; [assumption|]).
    split; [|split].
    + intros z ->. simpl in E9. congruence.
    + intros f ->. exact E9.
    + reflexivity.
  - intros e H. unfold calculate_ai_metrics. rewrite H. reflexivity.
  - vm_compute. reflexivity.
Qed.

Lemma patents_estimate_witness :
  int_of_float (7.75 * 10)%float = Ok 77%Z
  /\ field (calculate_ai_metrics context_sample
              (strategy_with (PyFloat 7.75) [] [text "OpenAI"])) "ai_patents"
     = Some (PyInt 82).
Proof.
  destruct (proj1 (patents_estimate context_sample
                     (strategy_with (PyFloat 7.75) [] [text "OpenAI"])) _ eq_refl)
    as (ai_score & partners & p & scaled & E1 & E2 & E3 & E4 & _ & Hf & Hm).
  vm_compute in E1, E2. inversion E1. inversion E2. subst ai_score partners.
  vm_compute in E3. inversion E3. subst p.
  specialize (Hf _ eq_refl).
  assert (Hs : scaled = 77%Z) by (vm_compute in Hf; now inversion Hf).
  subst scaled. split; [exact Hf|exact Hm].
Defined.

(** C5, as stated, fails on a score whose tenfold has a fractional part of
    one half or more: the code truncates where the claim rounds. *)
Lemma patents_truncated_not_rounded :
  field (calculate_ai_metrics context_sample (strategy_with (PyFloat 7.75) [] []))
    "ai_patents" = Some (PyInt 77)
  /\ spec_estimated_patents 7.75 0 = Ok 78%Z.
Proof. vm_compute. split; reflexivity. Qed.

Lemma table_get_unlisted (s : ustring) (t : list (ustring * float)) (default : float) :
  ~ In s (map fst t) -> table_get s t default = default.
Proof.
  induction t as [|[k m] t IH]; simpl; [reflexivity|].
  intro H. destruct (ustring_eqb s k) eqn:E.
  - apply ustring_eqb_eq in E. subst. elim H. now left.
  - apply IH. intro Hin. apply H. now right.
Qed.

Lemma number_value_exposure (x : float) :
  number_value (py_round_1 (min_100 x))
  = Some (round_1 (if (x <? 100)%float then x else 100%float)).
Proof.
  unfold min_100. destruct (x <? 100)%float; [reflexivity|].
  vm_compute. reflexivity.
Qed.

(** C6 (amended). The sector table holds Technology 1.5, Communication
    Services 1.2, Consumer Cyclical 1.0, Healthcare 1.1, Financial Services
    1.1, Industrials 0.8, Consumer Defensive 0.7, and any sector text it
    does not list gives 0.8. When the metrics computation completes,
    [ai_revenue_exposure] has the value of
    [min(100, m * ai_maturity_score * 2 + count(ai_initiatives) * 5)]
    rounded to one decimal, with [m] the table's value for the sector; when
    it raises (on any field of the strategy object), the exposure is the
    fallback 0. Technology with score 8 and 3 initiatives gives 39.0. *)
Theorem revenue_exposure (ctx strategy : pyval) :
  (sector_multiplier (text "Technology") = Ok 1.5%float
   /\ sector_multiplier (text "Communication Services") = Ok 1.2%float
   /\ sector_multiplier (text "Consumer Cyclical") = Ok 1.0%float
   /\ sector_multiplier (text "Healthcare") = Ok 1.1%float
   /\ sector_multiplier (text "Financial Services") = Ok 1.1%float
   /\ sector_multiplier (text "Industrials") = Ok 0.8%float
   /\ sector_multiplier (text "Consumer Defensive") = Ok 0.7%float)
  /\ (forall s, ~ In s (map fst sector_ai_multipliers) ->
                sector_multiplier (PyStr s) = Ok 0.8%float)
  /\ (forall metrics,
        calculate_ai_metrics_body ctx strategy = Ok metrics ->
        exists sector m ai_score score initiatives count exposure,
          py_getitem ctx (u "sector") = Ok sector
          /\ sector_multiplier sector = Ok m
          /\ py_get strategy (u "ai_maturity_score") (PyInt 5) = Ok ai_score
          /\ as_float ai_score = Ok score
          /\ py_get strategy (u "ai_initiatives") (PyList []) = Ok initiatives
          /\ py_len initiatives = Ok count
          /\ field (calculate_ai_metrics ctx strategy) "ai_revenue_exposure" = Some exposure
          /\ number_value exposure = Some (spec_ai_revenue_exposure m score count))
  /\ (forall e,
        calculate_ai_metrics_body ctx strategy = Raise e ->
        field (calculate_ai_metrics ctx strategy) "ai_revenue_exposure" = Some (PyInt 0))
  /\ field (calculate_ai_metrics context_sample
              (strategy_with (PyInt 8) [text "copilot"; text "search"; text "chips"] []))
       "ai_revenue_exposure" = Some (PyFloat 39).
Proof.
  split; [|split; [|split; [|split]]].
  - vm_compute. repeat split; reflexivity.
  - intros s H. unfold sector_multiplier. now rewrite (table_get_unlisted _ _ _ H).
  - intros metrics H. unfold calculate_ai_metrics. rewrite H. cbn [try_except].
    apply metrics_body_inv in H
      as (ai_score & sector & base & ini & count & score & partners & p & scaled
          & E1 & E2 & E3 & E4 & E5 & E6 & _ & _ & _ & ->).
    exists sector, base, ai_score, score, ini, count.
    eexists. repeat (split; [eassumption|]). split; [reflexivity|].
    apply number_value_exposure.
  - intros e H. unfold calculate_ai_metrics. rewrite H. reflexivity.
  - vm_compute. reflexivity.
Qed.

Lemma revenue_exposure_witness :
  spec_ai_revenue_exposure 1.1 7 2 = 25.4%float
  /\ field (calculate_ai_metrics (context_of (text "JNJ") [ kv "sector" (text "Healthcare") ])
              (strategy_with (PyInt 7) [text "imaging"; text "trials"] []))
       "ai_revenue_exposure" = Some (PyFloat 25.4).
Proof.
  destruct (proj1 (proj2 (proj2
              (revenue_exposure (context_of (text "JNJ") [ kv "sector" (text "Healthcare") ])
                 (strategy_with (PyInt 7) [text "imaging"; text "trials"] [])))) _ eq_refl)
    as (sector & m & ai_score & score & ini & count & exposure
        & E1 & E2 & E3 & E4 & E5 & E6 & Hf & Hv).
  split; [vm_compute; reflexivity|].
  rewrite Hf. f_equal.
  vm_compute in E1. inversion E1. subst sector.
  vm_compute in E2. inversion E2. subst m.
  vm_compute in E3. inversion E3. subst ai_score.
  vm_compute in E4. inversion E4. subst score.
  vm_compute in E5. inversion E5. subst ini.
  vm_compute in E6. inversion E6. subst count.
  vm_compute in Hf. now inversion Hf.
Defined.

(** C6, as stated, fails on a strategy object whose [partnerships] is
    null: the formula gives 39.0, the code falls back to 0. *)
Lemma exposure_lost_on_null_partnerships :
  field (calculate_ai_metrics context_sample
           (PyDict [ kv "ai_initiatives" (PyList [text "copilot"; text "search"; text "chips"]);
                     kv "partnerships" PyNone;
                     kv "ai_maturity_score" (PyInt 8) ]))
    "ai_revenue_exposure" = Some (PyInt 0)
  /\ spec_ai_revenue_exposure 1.5 8 3 = 39%float
  /\ number_value (PyInt 0) = Some 0%float.
Proof. vm_compute. repeat split; reflexivity. Qed.

(* ================================================================== *)
(** ** Shape of the stock-mode result *)
(* ================================================================== *)

Lemma recommendation_cases
  (json_loads : ustring -> json_outcome) (create : stage -> result response)
  (ctx strategy : pyval) :
  let recommendation := get_investment_recommendation json_loads create ctx strategy in
  recommendation_static recommendation
  \/ exists r, create RecommendationStage = Ok r
               /\ parse_openai_json json_loads r = Ok recommendation.
Proof.
  cbv zeta. unfold get_investment_recommendation, get_investment_recommendation_body.
  destruct (recommendation_prompt ctx strategy); cbn [bind try_except];
    [|left; eexists; reflexivity].
  destruct (create RecommendationStage) as [r|] eqn:Ec; cbn [bind try_except];
    [|left; eexists; reflexivity].
  destruct (parse_openai_json json_loads r) as [v|] eqn:Ep; cbn [try_except];
    [right; eauto|left; eexists; reflexivity].
Qed.

Lemma story_cases
  (json_loads : ustring -> json_outcome) (create : stage -> result response)
  (ctx strategy : pyval) :
  let story := generate_ai_story json_loads create ctx strategy in
  story_static story
  \/ exists r, create StoryStage = Ok r /\ parse_openai_json json_loads r = Ok story.
Proof.
  cbv zeta. unfold generate_ai_story, generate_ai_story_body.
  destruct (story_prompt ctx strategy); cbn [bind try_except];
    [|left; eexists; reflexivity].
  destruct (create StoryStage) as [r|] eqn:Ec; cbn [bind try_except];
    [|left; eexists; reflexivity].
  destruct (parse_openai_json json_loads r) as [v|] eqn:Ep; cbn [try_except];
    [right; eauto|left; eexists; reflexivity].
Qed.




(* ================================================================== *)
(** ** Properties of the 401k mode *)
(* ================================================================== *)

Lemma benefits_of_dict
  (json_loads : ustring -> json_outcome) (create : stage -> result response)
  (timestamp : ustring) (company_name : pyval) (d : list (ustring * pyval)) :
  analyze_401k_benefits json_loads create company_name = PyDict d ->
  analyze_company_401k json_loads create timestamp company_name = sections_of d timestamp.
Proof. unfold analyze_company_401k. cbv zeta. now intros ->. Qed.






(* ================================================================== *)
(** ** Further properties of the sanitizer and of logging *)
(* ================================================================== *)

Lemma str_replace_single (old : codepoint) (new : ustring) (c : codepoint) :
  str_replace old new [c] = if (c =? old)%N then new else [c].
Proof. unfold str_replace. simpl. apply app_nil_r. Qed.

Lemma str_replace_app (old : codepoint) (new x y : ustring) :
  str_replace old new (x ++ y) = str_replace old new x ++ str_replace old new y.
Proof. apply flat_map_app. Qed.

(** The eight passes and the encoding, as one function of the text. *)
Lemma passes_app (x y : ustring) :
  encode_ascii_backslashreplace
    (fold_left (fun acc r => str_replace (fst r) (snd r) acc) replacements (x ++ y))
  = encode_ascii_backslashreplace
      (fold_left (fun acc r => str_replace (fst r) (snd r) acc) replacements x)
    ++ encode_ascii_backslashreplace
         (fold_left (fun acc r => str_replace (fst r) (snd r) acc) replacements y).
Proof.
  unfold replacements. cbn [fold_left fst snd].
  repeat rewrite str_replace_app. apply flat_map_app.
Qed.

Lemma passes_char (c : codepoint) :
  encode_ascii_backslashreplace
    (fold_left (fun acc r => str_replace (fst r) (snd r) acc) replacements [c])
  = sanitize_char c.
Proof.
  unfold sanitize_char, replacements. cbn [fold_left fst snd replacement_of].
  destruct (c =? EM_DASH)%N eqn:E1;
    [apply N.eqb_eq in E1; subst; vm_compute; reflexivity|].
  destruct (c =? EN_DASH)%N eqn:E2;
    [apply N.eqb_eq in E2; subst; vm_compute; reflexivity|].
  destruct (c =? 8216)%N eqn:E3;
    [apply N.eqb_eq in E3; subst; vm_compute; reflexivity|].
  destruct (c =? 8217)%N eqn:E4;
    [apply N.eqb_eq in E4; subst; vm_compute; reflexivity|].
  destruct (c =? 8220)%N eqn:E5;
    [apply N.eqb_eq in E5; subst; vm_compute; reflexivity|].
  destruct (c =? 8221)%N eqn:E6;
    [apply N.eqb_eq in E6; subst; vm_compute; reflexivity|].
  destruct (c =? 8230)%N eqn:E7;
    [apply N.eqb_eq in E7; subst; vm_compute; reflexivity|].
  destruct (c =? 160)%N eqn:E8;
    [apply N.eqb_eq in E8; subst; vm_compute; reflexivity|].
  rewrite str_replace_single, E1, str_replace_single, E2, str_replace_single, E3,
    str_replace_single, E4, str_replace_single, E5, str_replace_single, E6,
    str_replace_single, E7, str_replace_single, E8.
  unfold encode_ascii_backslashreplace. simpl. apply app_nil_r.
Qed.

Lemma passes_flat_map (s : ustring) :
  encode_ascii_backslashreplace
    (fold_left (fun acc r => str_replace (fst r) (snd r) acc) replacements s)
  = flat_map sanitize_char s.
Proof.
  induction s as [|c s IH]; [reflexivity|].
  change (c :: s) with ([c] ++ s). rewrite passes_app, passes_char, IH. reflexivity.
Qed.

Lemma hex_fixed_length (w : nat) (c : N) : List.length (hex_fixed w c) = w.
Proof.
  revert c. induction w as [|w IH]; intro c; simpl; [reflexivity|].
  rewrite length_app, IH. simpl. lia.
Qed.

Lemma sanitize_char_length (c : codepoint) : (List.length (sanitize_char c) <= 10)%nat.
Proof.
  unfold sanitize_char, replacements. cbn [replacement_of].
  repeat match goal with
         | |- context [if (c =? ?k)%N then _ else _] =>
             destruct (c =? k)%N; [simpl; lia|]
         end.
  destruct (is_ascii c); [simpl; lia|].
  unfold backslashreplace.
  destruct (c <? 256)%N; [|destruct (c <? 65536)%N];
    rewrite length_app, hex_fixed_length; simpl; lia.
Qed.

Lemma flat_map_length_bound {A B} (f : A -> list B) (n : nat) (l : list A) :
  (forall a, List.length (f a) <= n)%nat ->
  (List.length (flat_map f l) <= n * List.length l)%nat.
Proof.
  intro H. induction l as [|a l IH]; simpl; [lia|].
  rewrite length_app. specialize (H a). lia.
Qed.

(** X1. On a truthy input the sanitizer is one pass over the normalized
    text: each code point becomes its entry in the replacement table, itself
    when it is ASCII, and its backslash escape otherwise; the eight
    successive replacements do not interfere with one another. The output is
    at most ten times as long as the normalized text. *)
Theorem sanitize_single_pass
  (nfkc : ustring -> ustring) (str_of_object : pyval -> ustring) (v : pyval) :
  truthy v = true ->
  sanitize_text nfkc str_of_object v
  = flat_map sanitize_char (nfkc (py_str str_of_object v))
  /\ (List.length (sanitize_text nfkc str_of_object v)
      <= 10 * List.length (nfkc (py_str str_of_object v)))%nat.
Proof.
  intro H.
  assert (E : sanitize_text nfkc str_of_object v
              = flat_map sanitize_char (nfkc (py_str str_of_object v))).
  { unfold sanitize_text. rewrite H. cbn [negb]. apply passes_flat_map. }
  split; [exact E|]. rewrite E.
  apply flat_map_length_bound, sanitize_char_length.
Qed.

Lemma sanitize_single_pass_witness :
  sanitize_text nfkc_sample str_sample (PyStr mixed_text)
  = flat_map sanitize_char (nfkc_sample mixed_text)
  /\ (List.length (sanitize_text nfkc_sample str_sample (PyStr mixed_text))
      <= 10 * List.length (nfkc_sample mixed_text))%nat.
Proof.
  exact (sanitize_single_pass nfkc_sample str_sample (PyStr mixed_text) eq_refl).
Defined.

(** X2. A non-empty or empty ASCII text passes through the sanitizer
    unchanged, as soon as NFKC leaves ASCII text unchanged. *)
Theorem sanitize_ascii_unchanged
  (nfkc : ustring -> ustring) (str_of_object : pyval -> ustring) (s : ustring) :
  (forall t, pure_ascii t -> nfkc t = t) -> pure_ascii s ->
  sanitize_text nfkc str_of_object (PyStr s) = s.
Proof.
  intros Hn Hs. unfold sanitize_text. destruct s as [|c s]; [reflexivity|].
  cbn [truthy negb py_str].
  rewrite (Hn _ Hs), (replacements_ascii_id _ Hs). now apply encode_ascii_id.
Qed.

Lemma sanitize_ascii_unchanged_witness :
  sanitize_text nfkc_sample str_sample (text "Market Cap: $2.5B (AI-first)")
  = u "Market Cap: $2.5B (AI-first)".
Proof.
  apply (sanitize_ascii_unchanged nfkc_sample str_sample
           (u "Market Cap: $2.5B (AI-first)") nfkc_sample_ascii).
  reflexivity.
Defined.

Lemma hex_value_snoc (digits : ustring) (d : codepoint) :
  hex_value (digits ++ [d]) = (hex_value digits * 16 + hex_digit_value d)%N.
Proof. unfold hex_value. now rewrite fold_left_app. Qed.

Lemma hex_digit_value_digit (d : N) : (d < 16)%N -> hex_digit_value (hex_digit d) = d.
Proof.
  intro H. unfold hex_digit, hex_digit_value.
  destruct (d <? 10)%N eqn:E.
  - apply N.ltb_lt in E.
    assert (E' : (48 + d <? 58)%N = true) by (apply N.ltb_lt; lia).
    rewrite E'. lia.
  - apply N.ltb_ge in E.
    assert (E' : (87 + d <? 58)%N = false) by (apply N.ltb_ge; lia).
    rewrite E'. lia.
Qed.

Lemma hex_value_fixed (w : nat) (c : N) :
  hex_value (hex_fixed w c) = (c mod 16 ^ N.of_nat w)%N.
Proof.
  revert c. induction w as [|w IH]; intro c.
  - simpl. now rewrite N.mod_1_r.
  - cbn [hex_fixed]. rewrite hex_value_snoc, IH.
    rewrite hex_digit_value_digit by (apply N.mod_lt; discriminate).
    rewrite Nat2N.inj_succ, N.pow_succ_r'.
    rewrite (N.Div0.mod_mul_r c 16 (16 ^ N.of_nat w)). lia.
Qed.

Lemma unescape_tagged (digits : ustring) :
  unescape (u "\x" ++ digits) = Some (hex_value digits)
  /\ unescape (u "\u" ++ digits) = Some (hex_value digits)
  /\ unescape (u "\U" ++ digits) = Some (hex_value digits).
Proof. repeat split. Qed.

(** X3. The backslash escape of a code point can be read back: for every
    code point below 2^32 (all of Unicode), the hexadecimal digits of the
    escape denote the code point; the two-, four- and eight-digit forms are
    each wide enough for the range they are used on. *)
Theorem escape_round_trip (c : codepoint) :
  (c < 2 ^ 32)%N -> unescape (backslashreplace c) = Some c.
Proof.
  intro H. unfold backslashreplace.
  destruct (unescape_tagged (hex_fixed 2 c)) as [Hx _].
  destruct (unescape_tagged (hex_fixed 4 c)) as [_ [Hu _]].
  destruct (unescape_tagged (hex_fixed 8 c)) as [_ [_ HU]].
  destruct (c <? 256)%N eqn:E1; [|destruct (c <? 65536)%N eqn:E2].
  - rewrite Hx, hex_value_fixed. f_equal. apply N.mod_small.
    apply N.ltb_lt in E1. exact E1.
  - rewrite Hu, hex_value_fixed. f_equal. apply N.mod_small.
    apply N.ltb_lt in E2. exact E2.
  - rewrite HU, hex_value_fixed. f_equal. apply N.mod_small. exact H.
Qed.

Lemma escape_round_trip_witness :
  unescape (backslashreplace 0xE9%N) = Some 0xE9%N
  /\ unescape (backslashreplace 0x2014%N) = Some 0x2014%N
  /\ unescape (backslashreplace 0x1F600%N) = Some 0x1F600%N.
Proof.
  split; [|split]; apply escape_round_trip; reflexivity.
Defined.

(** X4. The encoding does not tell a non-ASCII code point from its escape
    written out in ASCII: the two texts differ and encode alike. *)
Theorem escape_collides_with_its_text (c : codepoint) :
  is_ascii c = false ->
  encode_ascii_backslashreplace [c]
  = encode_ascii_backslashreplace (backslashreplace c)
  /\ [c] <> backslashreplace c.
Proof.
  intro H. split.
  - rewrite (encode_ascii_id _ (backslashreplace_ascii c)).
    unfold encode_ascii_backslashreplace. simpl. rewrite H. apply app_nil_r.
  - intro E. pose proof (backslashreplace_ascii c) as Ha. rewrite <- E in Ha.
    unfold pure_ascii in Ha. simpl in Ha. rewrite H in Ha. discriminate.
Qed.

Lemma escape_collides_with_its_text_witness :
  encode_ascii_backslashreplace [0x65E5%N]
  = encode_ascii_backslashreplace (u "\u65e5")
  /\ [0x65E5%N] <> u "\u65e5".
Proof.
  exact (escape_collides_with_its_text 0x65E5%N eq_refl).
Defined.

(** X5. Logging keeps the log ASCII: whatever objects are logged through
    [safe_log], and whatever [str()] and NFKC make of them, every line of
    the log is pure ASCII if the lines before were; a falsy message logs an
    empty line. *)
Theorem safe_log_keeps_ascii
  (nfkc : ustring -> ustring) (str_of_object : pyval -> ustring)
  (msgs : list pyval) (logged : list ustring) :
  Forall pure_ascii logged ->
  Forall pure_ascii (fold_left (fun l m => safe_log nfkc str_of_object m l) msgs logged).
Proof.
  revert logged. induction msgs as [|m msgs IH]; intros logged H; simpl; [exact H|].
  apply IH. unfold safe_log. apply Forall_app. split; [exact H|].
  constructor; [apply sanitize_text_ascii|constructor].
Qed.

Lemma safe_log_keeps_ascii_witness :
  Forall pure_ascii
    (fold_left (fun l m => safe_log nfkc_sample str_sample m l)
       [ PyStr mixed_text; PyNone; PyInt 7 ] []).
Proof.
  exact (safe_log_keeps_ascii nfkc_sample str_sample
           [ PyStr mixed_text; PyNone; PyInt 7 ] [] (Forall_nil _)).
Defined.

(* ================================================================== *)
(** ** Further properties of the analyzer *)
(* ================================================================== *)

(** X6. The analyzer is constructed only from a credential that is set,
    non-empty and pure ASCII, which it stores unchanged with the model name
    "gpt-5"; and construction fails only with a [RuntimeError] that carries
    one of the three messages. *)
Theorem init_success_characterised (env_key : option ustring) :
  (forall a, AIAnalyzer_init env_key = Ok a ->
     exists key, env_key = Some key /\ key <> [] /\ pure_ascii key
                 /\ a = {| api_key := key; model := u "gpt-5" |})
  /\ (forall e, AIAnalyzer_init env_key = Raise e ->
        e = RuntimeError MSG_NOT_SET \/ e = RuntimeError MSG_DASH
        \/ e = RuntimeError MSG_NON_ASCII).
Proof.
  destruct env_key as [[|c key]|]; split; intros x H; try discriminate.
  - inversion H. now left.
  - rewrite init_nonempty in H by discriminate.
    destruct (encodes_as_ascii (c :: key)) eqn:E.
    + inversion H. exists (c :: key). repeat split; [discriminate|exact E].
    + destruct (contains EM_DASH (c :: key) || contains EN_DASH (c :: key)); discriminate.
  - rewrite init_nonempty in H by discriminate.
    destruct (encodes_as_ascii (c :: key)); [discriminate|].
    destruct (contains EM_DASH (c :: key) || contains EN_DASH (c :: key));
      inversion H; auto.
  - inversion H. now left.
Qed.

(** X7. The parser reads the first choice only: the other choices do not
    change its result; a response without any choice raises [IndexError];
    and on a response with a choice the parser raises only what the JSON
    decoder raises besides [JSONDecodeError], on a body it was given. *)
Theorem parse_reads_first_choice
  (json_loads : ustring -> json_outcome) (msg : message) (rest : list message) :
  (forall rest', parse_openai_json json_loads {| choices := msg :: rest' |}
                 = parse_openai_json json_loads {| choices := msg :: rest |})
  /\ parse_openai_json json_loads {| choices := [] |} = Raise IndexError
  /\ (forall e, parse_openai_json json_loads {| choices := msg :: rest |} = Raise e ->
        exists body, parsed msg = PyNone /\ content msg = PyStr body
                     /\ strip_nonempty body = true /\ json_loads body = JSONRaises e).
Proof.
  split; [reflexivity|split; [reflexivity|]].
  intros e. unfold parse_openai_json. cbn [choices].
  destruct (parsed msg) eqn:Ep; try discriminate.
  destruct (content msg) as [| | | |body| |] eqn:Ec; try discriminate.
  destruct (strip_nonempty body) eqn:Es; [|discriminate].
  destruct (json_loads body) eqn:Ej; try discriminate.
  intro H. inversion H. subst. exists body. auto.
Qed.

Lemma as_float_errors (v : pyval) (e : exn) :
  as_float v = Raise e -> e = TypeError \/ e = OverflowError.
Proof.
  destruct v; simpl; intro H; try (inversion H; auto; fail).
  unfold float_of_int in H. cbv zeta in H.
  destruct (is_infinity (nearest_float z)); inversion H. auto.
Qed.

Lemma fmt_thousands_errors (v : pyval) (e : exn) :
  fmt_thousands v = Raise e -> e = TypeError \/ e = ValueError.
Proof.
  destruct v as [| |z| | | |]; cbn [fmt_thousands]; intro H;
    [| |destruct (fits_digits MAX_STR_DIGITS (Z.abs z))| | | |]; inversion H; auto.
Qed.

Lemma strategy_prompt_of_context (symbol : pyval) (info : list (ustring * pyval)) :
  strategy_prompt (context_of symbol info)
  = (_ <- fmt_billions (lookup_or info "marketCap" (PyInt 0)) ;;
     fmt_thousands (lookup_or info "fullTimeEmployees" (PyInt 0))).
Proof. reflexivity. Qed.

Lemma fits_digits_spec (n : nat) (z : Z) :
  (0 <= z)%Z -> fits_digits n z = true <-> (z < 10 ^ Z.of_nat n)%Z.
Proof.
  revert z. induction n as [|n IH]; intros z Hz.
  - cbn [fits_digits]. rewrite Z.eqb_eq. change (10 ^ Z.of_nat 0)%Z with 1%Z. lia.
  - cbn [fits_digits]. rewrite Nat2Z.inj_succ, Z.pow_succ_r by lia.
    assert (0 < 10 ^ Z.of_nat n)%Z by (apply Z.pow_pos_nonneg; lia).
    destruct (Z.eqb_spec z 0) as [->|Hnz]; [split; [lia|reflexivity]|].
    rewrite IH by (apply Z.div_pos; lia).
    pose proof (Z.div_mod z 10 ltac:(lia)) as Hd.
    pose proof (Z.mod_pos_bound z 10 ltac:(lia)) as Hm.
    lia.
Qed.

Lemma fmt_thousands_int_cases (z : Z) :
  (fits_digits MAX_STR_DIGITS (Z.abs z) = true /\ fmt_thousands (PyInt z) = Ok tt)
  \/ (fits_digits MAX_STR_DIGITS (Z.abs z) = false
      /\ fmt_thousands (PyInt z) = Raise ValueError).
Proof.
  unfold fmt_thousands. destruct (fits_digits MAX_STR_DIGITS (Z.abs z)); auto.
Qed.

Lemma fmt_thousands_int (z : Z) :
  fmt_thousands (PyInt z) = Ok tt <-> (Z.abs z < 10 ^ Z.of_nat MAX_STR_DIGITS)%Z.
Proof.
  rewrite <- (fits_digits_spec MAX_STR_DIGITS (Z.abs z) (Z.abs_nonneg z)).
  destruct (fmt_thousands_int_cases z) as [[Hf ->]|[Hf ->]]; rewrite Hf;
    split; intro H; try reflexivity; discriminate H.
Qed.

Lemma fmt_thousands_int_raises (z : Z) :
  (10 ^ Z.of_nat MAX_STR_DIGITS <= Z.abs z)%Z ->
  fmt_thousands (PyInt z) = Raise ValueError.
Proof.
  intro Hlim. destruct (fmt_thousands_int_cases z) as [[Hf _]|[_ H]]; [|exact H].
  apply (fits_digits_spec MAX_STR_DIGITS (Z.abs z) (Z.abs_nonneg z)) in Hf.
  destruct (Z.lt_irrefl _ (Z.lt_le_trans _ _ _ Hf Hlim)).
Qed.

(** X8. On the context that [_prepare_company_context] builds from market
    data whose symbol, name, sector, industry and summary are texts,
    rendering the strategy prompt never fails on a missing key. It succeeds
    exactly when the market capitalisation is a number a float can hold and
    the employee count can be written with thousands separators: a float, a
    bool, or an integer of at most 4300 digits. Otherwise it raises the
    [TypeError] or [OverflowError] of the division by 1e9, or the
    [TypeError] or [ValueError] of the thousands format. *)
Theorem strategy_prompt_prepared (symbol : pyval) (info : list (ustring * pyval)) :
  let market_cap := lookup_or info "marketCap" (PyInt 0) in
  let employees := lookup_or info "fullTimeEmployees" (PyInt 0) in
  text_fields symbol info = true ->
  (strategy_prompt (context_of symbol info) = Ok tt
   <-> (exists f, as_float market_cap = Ok f) /\ fmt_thousands employees = Ok tt)
  /\ (forall z, employees = PyInt z ->
        fmt_thousands employees = Ok tt <-> (Z.abs z < 10 ^ Z.of_nat MAX_STR_DIGITS)%Z)
  /\ (forall z, employees = PyInt z -> (10 ^ Z.of_nat MAX_STR_DIGITS <= Z.abs z)%Z ->
        (exists f, as_float market_cap = Ok f) ->
        strategy_prompt (context_of symbol info) = Raise ValueError)
  /\ (forall e, strategy_prompt (context_of symbol info) = Raise e ->
        (as_float market_cap = Raise e /\ (e = TypeError \/ e = OverflowError))
        \/ (fmt_thousands employees = Raise e /\ (e = TypeError \/ e = ValueError))).
Proof.
  cbv zeta. intros _. rewrite strategy_prompt_of_context. unfold fmt_billions.
  pose proof fmt_thousands_int as Hz.
  split; [|split; [|split]].
  - split.
    + intro H.
      destruct (as_float (lookup_or info "marketCap" (PyInt 0))) as [f|e'] eqn:Ef;
        cbn [bind] in H; [|discriminate H].
      split; [now exists f|exact H].
    + intros [[f Hf] He]. rewrite Hf. cbn [bind]. exact He.
  - intros z ->. apply Hz.
  - intros z Hz' Hlim [f Hf]. rewrite Hf, Hz'. cbn [bind].
    now apply fmt_thousands_int_raises.
  - intros e H.
    destruct (as_float (lookup_or info "marketCap" (PyInt 0))) as [f|e'] eqn:Ef;
      cbn [bind] in H.
    + right. split; [exact H|]. now apply fmt_thousands_errors in H.
    + inversion H. subst e'. left. split; [reflexivity|].
      now apply as_float_errors in Ef.
Qed.

Lemma strategy_prompt_prepared_witness :
  strategy_prompt (context_of (text "ACME") info_sample) = Ok tt
  /\ strategy_prompt (context_of (text "ACME") info_long_count) = Raise ValueError.
Proof.
  split.
  - apply (proj1 (strategy_prompt_prepared (text "ACME") info_sample eq_refl)).
    split; [now exists 2500000000%float|reflexivity].
  - apply (proj1 (proj2 (proj2
             (strategy_prompt_prepared (text "ACME") info_long_count eq_refl)))
             (10 ^ Z.of_nat MAX_STR_DIGITS)%Z eq_refl).
    + rewrite Z.abs_eq by (apply Z.pow_nonneg; lia). apply Z.le_refl.
    + now exists 2500000000%float.
Defined.

(** The story stage consults the remote model at its own call site only. *)
Lemma story_depends_on_its_call
  (json_loads : ustring -> json_outcome) (create create' : stage -> result response)
  (ctx strategy : pyval) :
  create' StoryStage = create StoryStage ->
  generate_ai_story json_loads create' ctx strategy
  = generate_ai_story json_loads create ctx strategy.
Proof.
  intro H. unfold generate_ai_story, generate_ai_story_body. now rewrite H.
Qed.




(** An object that answers [len] and is no mapping: a non-empty list or a
    non-empty string. *)
Lemma sized_not_mapping (v : pyval) :
  (exists x l, v = PyList (x :: l)) \/ (exists c s, v = PyStr (c :: s)) ->
  truthy v = true /\ (exists n, py_len v = Ok n) /\ (forall d, v <> PyDict d).
Proof.
  intros [[x [l ->]]|[c [s ->]]]; repeat split; try discriminate; eexists; reflexivity.
Qed.

Lemma get_on_non_mapping (v : pyval) (key : ustring) (default : pyval) :
  (forall d, v <> PyDict d) -> py_get v key default = Raise AttributeError.
Proof. intro H. destruct v; try reflexivity. now elim (H d). Qed.









(** X11. When the company information is no mapping (None, for one), the
    analysis does not start: the result is the static default, with action
    HOLD, both scores 5, zeroed metrics, an empty story and the timestamp,
    whatever the remote model and the decoder would do. *)
Theorem pipeline_default_on_bad_info
  (json_loads : ustring -> json_outcome) (create : stage -> result response)
  (timestamp : ustring) (symbol company_info : pyval) :
  (forall info, company_info <> PyDict info) ->
  let r := analyze_ai_potential json_loads create timestamp symbol company_info in
  r = get_default_analysis timestamp
  /\ (exists recommendation metrics story,
        field r "investment_recommendation" = Some recommendation
        /\ field r "ai_metrics" = Some metrics
        /\ field r "ai_story" = Some story
        /\ field recommendation "action" = Some (text "HOLD")
        /\ field recommendation "ai_score" = Some (PyInt 5)
        /\ field metrics "ai_revenue_exposure" = Some (PyInt 0)
        /\ field metrics "ai_investment_score" = Some (PyInt 5)
        /\ field story "use_cases" = Some (PyList []))
  /\ field r "analysis_timestamp" = Some (PyStr timestamp).
Proof.
  intros H r. subst r. unfold analyze_ai_potential.
  rewrite (prepare_not_dict symbol company_info H). cbn [bind try_except].
  split; [reflexivity|]. split; [|reflexivity].
  do 3 eexists. repeat split.
Qed.

Lemma pipeline_default_on_bad_info_witness :
  analyze_ai_potential json_loads_sample create_strategy_down timestamp_sample
    (text "ACME") PyNone
  = get_default_analysis timestamp_sample.
Proof.
  apply (pipeline_default_on_bad_info json_loads_sample create_strategy_down
           timestamp_sample (text "ACME") PyNone).
  discriminate.
Defined.

(* ================================================================== *)
(** ** Further properties of the 401k mode *)
(* ================================================================== *)

Lemma benefits_of_non_mapping
  (json_loads : ustring -> json_outcome) (create : stage -> result response)
  (timestamp : ustring) (company_name : pyval) :
  (forall d, analyze_401k_benefits json_loads create company_name <> PyDict d) ->
  analyze_company_401k json_loads create timestamp company_name
  = get_default_401k_analysis timestamp.
Proof.
  intro H. unfold analyze_company_401k. cbv zeta.
  now rewrite (get_on_non_mapping _ (u "overview") EMPTY H).
Qed.

(** X13. The 401k result always has the same seven keys, in the same
    order: the six sections and the timestamp, whatever the remote model
    answers or raises; keys of the answer outside the six sections are
    dropped. *)
Theorem benefits_result_keys
  (json_loads : ustring -> json_outcome) (create : stage -> result response)
  (timestamp : ustring) (company_name : pyval) :
  keys (analyze_company_401k json_loads create timestamp company_name) = BENEFIT_KEYS.
Proof.
  destruct (dict_or_not (analyze_401k_benefits json_loads create company_name))
    as [[d E]|H].
  - now rewrite (benefits_of_dict json_loads create timestamp company_name d E).
  - now rewrite (benefits_of_non_mapping json_loads create timestamp company_name H).
Qed.

(** X14. When the 401k answer decodes to a JSON array or a JSON string,
    the result is the static default analysis
    ([_get_default_401k_analysis]) with the timestamp. *)
Theorem benefits_answer_not_mapping
  (json_loads : ustring -> json_outcome) (create : stage -> result response)
  (timestamp : ustring) (company_name : pyval) (r : response) (v : pyval) :
  create BenefitsStage = Ok r ->
  parse_openai_json json_loads r = Ok v ->
  (exists x l, v = PyList (x :: l)) \/ (exists c s, v = PyStr (c :: s)) ->
  analyze_company_401k json_loads create timestamp company_name
  = get_default_401k_analysis timestamp.
Proof.
  intros Hc Hr Hv. apply sized_not_mapping in Hv as (Ht & [n Hn] & Hd).
  apply benefits_of_non_mapping.
  unfold analyze_401k_benefits, analyze_401k_benefits_body.
  rewrite Hc. cbn [bind]. rewrite Hr. cbn [bind]. rewrite Ht, Hn. exact Hd.
Qed.

Lemma benefits_answer_not_mapping_witness :
  analyze_company_401k json_loads_sample
    (fun _ => respond (text "no plan on file") PyNone) timestamp_sample (text "Acme Corp")
  = get_default_401k_analysis timestamp_sample.
Proof.
  apply (benefits_answer_not_mapping json_loads_sample
           (fun _ => respond (text "no plan on file") PyNone) timestamp_sample
           (text "Acme Corp")
           {| choices := [ {| parsed := text "no plan on file"; content := PyNone |} ] |}
           (text "no plan on file") eq_refl eq_refl).
  right. do 2 eexists. reflexivity.
Defined.

(* ================================================================== *)
(** ** Properties of the views of the dashboard *)
(* ================================================================== *)

Lemma optimization_status_of_score (analysis : pyval)
  (d recommendation : list (ustring * pyval)) (score : pyval) :
  analysis = PyDict d ->
  lookup_or d "recommendation" EMPTY = PyDict recommendation ->
  lookup_or recommendation "optimization_score" (PyInt 5) = score ->
  optimization_status analysis
  = (excellent <- py_ge_int score 8 ;;
     if excellent then Ok (score, u "green", u "Excellent")
     else
       good <- py_ge_int score 6 ;;
       if good then Ok (score, u "orange", u "Good")
       else Ok (score, u "red", u "Needs Improvement")).
Proof.
  intros -> Hr Hs. unfold optimization_status. cbn [py_get bind].
  unfold lookup_or in Hr. rewrite Hr. cbn [py_get bind].
  unfold lookup_or in Hs. now rewrite Hs.
Qed.

(** X15. The 401k status shown for an integer optimization score is
    Excellent (green) from 8 up, Good (orange) for 6 and 7, and Needs
    Improvement (red) below 6; a score that is a text or null makes the
    comparison raise a [TypeError]. *)
Theorem optimization_status_thresholds (analysis : pyval)
  (d recommendation : list (ustring * pyval)) (score : pyval) :
  analysis = PyDict d ->
  lookup_or d "recommendation" EMPTY = PyDict recommendation ->
  lookup_or recommendation "optimization_score" (PyInt 5) = score ->
  (forall z, score = PyInt z ->
     (8 <= z -> optimization_status analysis = Ok (score, u "green", u "Excellent"))%Z
     /\ (6 <= z < 8 -> optimization_status analysis = Ok (score, u "orange", u "Good"))%Z
     /\ (z < 6 ->
         optimization_status analysis = Ok (score, u "red", u "Needs Improvement"))%Z)
  /\ ((exists s, score = PyStr s) \/ score = PyNone ->
      optimization_status analysis = Raise TypeError).
Proof.
  intros Ha Hr Hs. rewrite (optimization_status_of_score analysis d recommendation score Ha Hr Hs).
  split.
  - intros z ->. cbn [py_ge_int bind]. repeat split; intro H.
    + assert (E : (8 <=? z)%Z = true) by (apply Z.leb_le; lia). now rewrite E.
    + assert (E8 : (8 <=? z)%Z = false) by (apply Z.leb_gt; lia).
      assert (E6 : (6 <=? z)%Z = true) by (apply Z.leb_le; lia). now rewrite E8, E6.
    + assert (E8 : (8 <=? z)%Z = false) by (apply Z.leb_gt; lia).
      assert (E6 : (6 <=? z)%Z = false) by (apply Z.leb_gt; lia). now rewrite E8, E6.
  - intros [[s ->]| ->]; reflexivity.
Qed.

Lemma optimization_status_thresholds_witness :
  optimization_status
    (PyDict [ kv "recommendation" (PyDict [ kv "optimization_score" (PyInt 7) ]) ])
  = Ok (PyInt 7, u "orange", u "Good")
  /\ optimization_status
       (PyDict [ kv "recommendation" (PyDict [ kv "optimization_score" (text "7/10") ]) ])
     = Raise TypeError.
Proof.
  split.
  - apply (proj1 (optimization_status_thresholds
                    (PyDict [ kv "recommendation"
                                (PyDict [ kv "optimization_score" (PyInt 7) ]) ])
                    _ _ (PyInt 7) eq_refl eq_refl eq_refl) 7%Z eq_refl).
    lia.
  - apply (proj2 (optimization_status_thresholds
                    (PyDict [ kv "recommendation"
                                (PyDict [ kv "optimization_score" (text "7/10") ]) ])
                    _ _ (text "7/10") eq_refl eq_refl eq_refl)).
    left. eexists. reflexivity.
Defined.

(** X16. Every way the 401k analysis of a company name that is a text can
    fail shows the same page as a poor plan: when the analysis stage raises,
    when the parse is falsy (the empty mapping, for one), and when the
    answer is a non-empty list or text, the display reads a company match
    of 0, a vesting period Unknown, no Roth plan and a maximal match of 0,
    then score 5, red, Needs Improvement. An answer that is a mapping is
    displayed as it came: when its overview is no mapping the display
    raises [AttributeError] before the status block. *)
Theorem status_on_failure
  (json_loads : ustring -> json_outcome) (create : stage -> result response)
  (timestamp : ustring) (company_name : pyval) :
  let result := analyze_company_401k json_loads create timestamp company_name in
  is_text company_name = true ->
  (forall e, analyze_401k_benefits_body json_loads create company_name = Raise e ->
             display_401k_top result = TOP_401K_DEFAULT)
  /\ (forall r v, create BenefitsStage = Ok r ->
                  parse_openai_json json_loads r = Ok v -> truthy v = false ->
                  display_401k_top result = TOP_401K_DEFAULT)
  /\ (forall r v, create BenefitsStage = Ok r ->
                  parse_openai_json json_loads r = Ok v ->
                  (exists x l, v = PyList (x :: l)) \/ (exists c s, v = PyStr (c :: s)) ->
                  display_401k_top result = TOP_401K_DEFAULT)
  /\ (forall r d overview, create BenefitsStage = Ok r ->
                  parse_openai_json json_loads r = Ok (PyDict d) -> d <> [] ->
                  assoc (u "overview") d = Some overview ->
                  (forall m, overview <> PyDict m) ->
                  display_401k_top result = Raise AttributeError).
Proof.
  cbv zeta. intros _. split; [|split; [|split]].
  - intros e H.
    erewrite benefits_of_dict
      by (unfold analyze_401k_benefits; rewrite H; reflexivity).
    reflexivity.
  - intros r v Hc Hp Hv.
    erewrite benefits_of_dict
      by (unfold analyze_401k_benefits, analyze_401k_benefits_body;
          rewrite Hc; cbn [bind]; rewrite Hp; cbn [bind]; rewrite Hv; reflexivity).
    reflexivity.
  - intros r v Hc Hp Hv. apply sized_not_mapping in Hv as (Ht & [n Hn] & Hd).
    rewrite benefits_of_non_mapping; [reflexivity|].
    unfold analyze_401k_benefits, analyze_401k_benefits_body.
    rewrite Hc. cbn [bind]. rewrite Hp. cbn [bind]. rewrite Ht, Hn. exact Hd.
  - intros r d overview Hc Hp Hd Ho Hm.
    rewrite (benefits_of_dict json_loads create timestamp company_name d).
    + unfold display_401k_top.
      change (py_get (sections_of d timestamp) (u "overview") EMPTY)
        with (Ok (lookup_or d "overview" EMPTY)).
      unfold lookup_or. rewrite Ho. cbn [bind].
      now rewrite (get_on_non_mapping overview _ _ Hm).
    + unfold analyze_401k_benefits, analyze_401k_benefits_body.
      rewrite Hc. cbn [bind]. rewrite Hp. cbn [bind].
      destruct d; [congruence|reflexivity].
Qed.

Lemma status_on_failure_witness :
  display_401k_top
    (analyze_company_401k json_loads_sample create_down timestamp_sample (text "Acme Corp"))
  = TOP_401K_DEFAULT
  /\ display_401k_top
       (analyze_company_401k json_loads_sample create_overview_text timestamp_sample
          (text "Acme Corp"))
     = Raise AttributeError.
Proof.
  split.
  - apply (proj1 (status_on_failure json_loads_sample create_down timestamp_sample
                    (text "Acme Corp") eq_refl) (APIError (u "Connection error."))).
    reflexivity.
  - apply (proj2 (proj2 (proj2 (status_on_failure json_loads_sample create_overview_text
                                  timestamp_sample (text "Acme Corp") eq_refl)))
             {| choices := [ {| parsed := PyDict [ kv "overview" (text "n/a") ];
                                content := PyNone |} ] |}
             [ kv "overview" (text "n/a") ] (text "n/a"));
      [reflexivity|reflexivity|discriminate|reflexivity|discriminate].
Defined.

Lemma color_get_cases (s : ustring) :
  (s = u "BUY" /\ color_get s color_map GRAY = GREEN)
  \/ (s = u "HOLD" /\ color_get s color_map GRAY = ORANGE)
  \/ (s = u "SELL" /\ color_get s color_map GRAY = RED)
  \/ (s <> u "BUY" /\ s <> u "HOLD" /\ s <> u "SELL" /\ color_get s color_map GRAY = GRAY).
Proof.
  unfold color_map. cbn [color_get].
  destruct (ustring_eqb s (u "BUY")) eqn:E1.
  { apply ustring_eqb_eq in E1. auto. }
  destruct (ustring_eqb s (u "HOLD")) eqn:E2.
  { apply ustring_eqb_eq in E2. auto. }
  destruct (ustring_eqb s (u "SELL")) eqn:E3.
  { apply ustring_eqb_eq in E3. auto 6. }
  right. right. right. repeat split; try reflexivity; intro H;
    apply ustring_eqb_eq in H; congruence.
Qed.

(** X17. The recommendation block shows BUY in green, HOLD in orange, SELL
    in red and any other action (other spellings or cases included) in
    gray; on a result whose recommendation is a mapping without an action
    it shows HOLD in orange. The display reaches the block only once its
    header is written: for market data whose name, symbol, sector and
    industry are texts and whose header is written, the result of a stock
    analysis whose recommendation call raised is shown as HOLD in orange; a
    header that raises (a current price or a market capitalisation that is
    null raises [TypeError]) ends the display before the block. *)
Theorem recommendation_badge_colours
  (json_loads : ustring -> json_outcome) (create : stage -> result response)
  (timestamp : ustring) (symbol : pyval) :
  (forall analysis action colour,
     recommendation_badge analysis = Ok (action, colour) ->
     (action = text "BUY" /\ colour = GREEN)
     \/ (action = text "HOLD" /\ colour = ORANGE)
     \/ (action = text "SELL" /\ colour = RED)
     \/ (action <> text "BUY" /\ action <> text "HOLD" /\ action <> text "SELL"
         /\ colour = GRAY))
  /\ (forall info e, create RecommendationStage = Raise e ->
        header_texts info = true ->
        display_header (PyDict info) = Ok tt ->
        display_analysis_top (PyDict info)
          (analyze_ai_potential json_loads create timestamp symbol (PyDict info))
        = Ok (text "HOLD", ORANGE))
  /\ (forall d recommendation,
        assoc (u "investment_recommendation") d = Some (PyDict recommendation) ->
        assoc (u "action") recommendation = None ->
        recommendation_badge (PyDict d) = Ok (text "HOLD", ORANGE))
  /\ (forall info analysis e,
        header_texts info = true ->
        display_header (PyDict info) = Raise e ->
        display_analysis_top (PyDict info) analysis = Raise e)
  /\ (forall info, header_texts info = true ->
        assoc (u "currentPrice") info = Some PyNone ->
        display_header (PyDict info) = Raise TypeError)
  /\ (forall info price, header_texts info = true ->
        fmt_fixed (lookup_or info "currentPrice" (PyInt 0)) = Ok price ->
        assoc (u "marketCap") info = Some PyNone ->
        display_header (PyDict info) = Raise TypeError).
Proof.
  split; [|split; [|split; [|split; [|split]]]].
  - intros analysis action colour H. unfold recommendation_badge in H.
    apply bind_ok in H as [recommendation [_ H]].
    apply bind_ok in H as [a [_ H]].
    destruct a as [| | | |s| |]; try discriminate;
      try (injection H as <- <-;
           right; right; right; repeat split; try reflexivity; discriminate).
    change (Ok (PyStr s, color_get s color_map GRAY) = Ok (action, colour)) in H.
    remember (color_get s color_map GRAY) as c eqn:Ec.
    injection H as <- <-. symmetry in Ec.
    destruct (color_get_cases s) as [[-> E]|[[-> E]|[[-> E]|(N1 & N2 & N3 & E)]]];
      rewrite E in Ec; subst c; auto.
    right. right. right. repeat split; try reflexivity; unfold text; congruence.
  - intros info e H _ Hh. unfold display_analysis_top. rewrite Hh. cbn [bind].
    rewrite analyze_ai_potential_dict. cbv zeta.
    now rewrite (recommendation_call_raises json_loads create _ _ e H).
  - intros d recommendation Hd Ha. unfold recommendation_badge.
    cbn [py_get]. rewrite Hd. cbn [bind py_get]. rewrite Ha. reflexivity.
  - intros info analysis e _ H. unfold display_analysis_top. now rewrite H.
  - intros info _ H. unfold display_header. cbn [py_get bind].
    destruct (assoc (u "longName") info), (assoc (u "symbol") info),
      (assoc (u "sector") info), (assoc (u "industry") info);
      cbn [bind]; rewrite H; reflexivity.
  - intros info price _ Hp H. unfold display_header. cbn [py_get bind].
    unfold lookup_or in Hp.
    destruct (assoc (u "longName") info), (assoc (u "symbol") info),
      (assoc (u "sector") info), (assoc (u "industry") info);
      cbn [bind];
      (destruct (assoc (u "currentPrice") info); cbn [bind];
       rewrite Hp; cbn [bind]; rewrite H; reflexivity).
Qed.

Lemma recommendation_badge_colours_witness :
  display_analysis_top (PyDict info_sample)
    (analyze_ai_potential json_loads_sample create_down timestamp_sample
       (text "ACME") (PyDict info_sample))
  = Ok (text "HOLD", ORANGE)
  /\ recommendation_badge
       (analyze_ai_potential json_loads_sample create_malformed timestamp_sample
          (text "ACME") (PyDict info_sample))
     = Ok (text "HOLD", ORANGE)
  /\ display_header (PyDict info_null_cap) = Raise TypeError
  /\ display_header (PyDict info_null_price) = Raise TypeError.
Proof.
  split; [|split; [|split]].
  - apply (proj1 (proj2 (recommendation_badge_colours json_loads_sample create_down
                           timestamp_sample (text "ACME")))
             info_sample (APIError (u "Connection error."))); reflexivity.
  - apply (proj1 (proj2 (proj2 (recommendation_badge_colours json_loads_sample
                                  create_malformed timestamp_sample (text "ACME"))))
             _ []); reflexivity.
  - apply (proj2 (proj2 (proj2 (proj2 (proj2
             (recommendation_badge_colours json_loads_sample create_down
                timestamp_sample (text "ACME"))))))
             info_null_cap 0%float); reflexivity.
  - apply (proj1 (proj2 (proj2 (proj2 (proj2
             (recommendation_badge_colours json_loads_sample create_down
                timestamp_sample (text "ACME"))))))
             info_null_price); reflexivity.
Defined.

(* ================================================================== *)
(** ** Properties of the market-data fetcher *)
(* ================================================================== *)

Section MarketDataFacts.

Variable frame : Type.
Variable frame_empty : frame -> bool.
Variable empty_frame : frame.
Variable Ticker : pyval -> result (ticker frame).

Lemma info_unusable_false (info : pyval) :
  info_unusable info = Ok false <->
  truthy info = true /\ py_contains (u "symbol") info = Ok true.
Proof.
  unfold info_unusable. destruct (truthy info); cbn [negb].
  - destruct (py_contains (u "symbol") info) as [[|]|e]; cbn [bind negb];
      split; try tauto; try discriminate; intros [_ H]; discriminate.
  - split; [discriminate|intros [H _]; discriminate].
Qed.

(** X18. When [get_stock_data] returns data, the ticker could be built,
    its information was read and is returned unchanged, the information is
    non-empty and holds the key [symbol], and the price history was read
    and is not empty. *)
Theorem get_stock_data_sound (symbol : pyval) (period : ustring) (d : stock_data frame) :
  get_stock_data frame_empty empty_frame Ticker symbol period = Some d ->
  exists t,
    Ticker symbol = Ok t
    /\ tk_info t = Ok (sd_info d)
    /\ truthy (sd_info d) = true
    /\ py_contains (u "symbol") (sd_info d) = Ok true
    /\ tk_history t period = Ok (sd_price_data d)
    /\ frame_empty (sd_price_data d) = false.
Proof.
  unfold get_stock_data. intro H.
  destruct (Ticker symbol) as [t|] eqn:Et; cbn [bind try_except] in H; [|discriminate].
  destruct (tk_info t) as [info|] eqn:Ei; cbn [bind try_except] in H; [|discriminate].
  destruct (info_unusable info) as [[|]|] eqn:Eu; cbn [bind try_except] in H;
    try discriminate.
  destruct (tk_history t period) as [h|] eqn:Eh; cbn [bind try_except] in H;
    [|discriminate].
  destruct (frame_empty h) eqn:Ee; cbn [try_except] in H; [discriminate|].
  destruct (financial_frames empty_frame t) as [[q b] c]. cbn [try_except] in H.
  inversion H. subst d. cbn [sd_info sd_price_data].
  apply info_unusable_false in Eu as [Ht Hc].
  exists t. auto 7.
Qed.

Lemma financial_frames_cases (t : ticker frame) :
  (exists q b c, tk_quarterly_financials t = Ok q /\ tk_balance_sheet t = Ok b
                 /\ tk_cashflow t = Ok c
                 /\ financial_frames empty_frame t = (q, b, c))
  \/ ((exists e, tk_quarterly_financials t = Raise e
                 \/ tk_balance_sheet t = Raise e \/ tk_cashflow t = Raise e)
      /\ financial_frames empty_frame t = (empty_frame, empty_frame, empty_frame)).
Proof.
  unfold financial_frames.
  destruct (tk_quarterly_financials t) as [q|e1]; cbn [bind try_except];
    [|right; split; [exists e1; auto|reflexivity]].
  destruct (tk_balance_sheet t) as [b|e2]; cbn [bind try_except];
    [|right; split; [exists e2; auto|reflexivity]].
  destruct (tk_cashflow t) as [c|e3]; cbn [bind try_except];
    [|right; split; [exists e3; auto|reflexivity]].
  left. exists q, b, c. auto.
Qed.

Lemma get_stock_data_returns
  (symbol : pyval) (period : ustring) (t : ticker frame) (info : pyval) (h : frame) :
  Ticker symbol = Ok t -> tk_info t = Ok info ->
  truthy info = true -> py_contains (u "symbol") info = Ok true ->
  tk_history t period = Ok h -> frame_empty h = false ->
  get_stock_data frame_empty empty_frame Ticker symbol period
  = Some {| sd_info := info; sd_price_data := h;
            sd_quarterly_financials := fst (fst (financial_frames empty_frame t));
            sd_balance_sheet := snd (fst (financial_frames empty_frame t));
            sd_cash_flow := snd (financial_frames empty_frame t) |}.
Proof.
  intros Et Ei Ht Hc Eh Ee.
  assert (Eu : info_unusable info = Ok false) by (apply info_unusable_false; auto).
  unfold get_stock_data. rewrite Et. cbn [bind]. rewrite Ei. cbn [bind].
  rewrite Eu. cbn [bind]. rewrite Eh. cbn [bind]. rewrite Ee.
  now destruct (financial_frames empty_frame t) as [[q b] c].
Qed.

(** X19. A failure to read the financial statements never fails the
    fetch: whenever the ticker has usable information and a non-empty price
    history, [get_stock_data] returns data with that information and
    history; the three statements are the ticker's when all three can be
    read, and three empty frames as soon as one of them raises. *)
Theorem get_stock_data_tolerates_financials
  (symbol : pyval) (period : ustring) (t : ticker frame) (info : pyval) (h : frame) :
  Ticker symbol = Ok t -> tk_info t = Ok info ->
  truthy info = true -> py_contains (u "symbol") info = Ok true ->
  tk_history t period = Ok h -> frame_empty h = false ->
  exists q b c,
    get_stock_data frame_empty empty_frame Ticker symbol period
    = Some {| sd_info := info; sd_price_data := h; sd_quarterly_financials := q;
              sd_balance_sheet := b; sd_cash_flow := c |}
    /\ ((tk_quarterly_financials t = Ok q /\ tk_balance_sheet t = Ok b
         /\ tk_cashflow t = Ok c)
        \/ ((exists e, tk_quarterly_financials t = Raise e
                       \/ tk_balance_sheet t = Raise e \/ tk_cashflow t = Raise e)
            /\ q = empty_frame /\ b = empty_frame /\ c = empty_frame)).
Proof.
  intros Et Ei Ht Hc Eh Ee.
  rewrite (get_stock_data_returns symbol period t info h Et Ei Ht Hc Eh Ee).
  destruct (financial_frames_cases t) as [(q & b & c & Hq & Hb & Hcf & ->)|[He ->]].
  - exists q, b, c. split; [reflexivity|]. left. auto.
  - exists empty_frame, empty_frame, empty_frame. split; [reflexivity|]. right. auto.
Qed.

(** X20. Each method of the fetcher builds its own ticker and fetches the
    information again. When the fetch of [get_stock_data] returns the same
    ticker data as the fetch of [validate_symbol] did, a symbol that
    [validate_symbol] accepts has information that [get_stock_data] accepts
    too, with a non-empty company name: for such a symbol [get_stock_data]
    returns data for every period whose price history can be read and is
    not empty. *)
Theorem validated_symbol_fetches
  (Ticker' : pyval -> result (ticker frame)) (symbol : pyval) :
  validate_symbol Ticker symbol = true ->
  Ticker' symbol = Ticker symbol ->
  exists t info long_name,
    Ticker symbol = Ok t /\ tk_info t = Ok info
    /\ py_get info (u "longName") PyNone = Ok long_name /\ truthy long_name = true
    /\ (forall period h,
          tk_history t period = Ok h -> frame_empty h = false ->
          exists d, get_stock_data frame_empty empty_frame Ticker' symbol period = Some d
                    /\ sd_info d = info /\ sd_price_data d = h).
Proof.
  unfold validate_symbol. intros H Hsame.
  destruct (Ticker symbol) as [t|] eqn:Et; cbn [bind try_except] in H; [|discriminate].
  destruct (tk_info t) as [info|] eqn:Ei; cbn [bind try_except] in H; [|discriminate].
  destruct (truthy info) eqn:Ht; cbn [negb try_except] in H; [|discriminate].
  destruct (py_contains (u "symbol") info) as [[|]|] eqn:Hc;
    cbn [bind negb try_except] in H; try discriminate.
  destruct (py_get info (u "longName") PyNone) as [long_name|] eqn:Hl;
    cbn [bind try_except] in H; [|discriminate].
  exists t, info, long_name. repeat split; try assumption.
  intros period h Eh Ee.
  unfold get_stock_data. rewrite Hsame. cbn [bind]. rewrite Ei. cbn [bind].
  unfold info_unusable. rewrite Ht. cbn [negb]. rewrite Hc. cbn [bind negb].
  rewrite Eh. cbn [bind]. rewrite Ee.
  destruct (financial_frames empty_frame t) as [[q b] c].
  eexists. repeat split.
Qed.

End MarketDataFacts.

Lemma get_stock_data_sound_witness :
  exists t,
    Ticker_sample (text "ACME") = Ok t
    /\ tk_info t = Ok (sd_info data_acme)
    /\ truthy (sd_info data_acme) = true
    /\ py_contains (u "symbol") (sd_info data_acme) = Ok true
    /\ tk_history t (u "1y") = Ok (sd_price_data data_acme)
    /\ frame_sample_empty (sd_price_data data_acme) = false.
Proof.
  exact (get_stock_data_sound frame_sample frame_sample_empty [] Ticker_sample
           (text "ACME") (u "1y") data_acme eq_refl).
Defined.

Lemma get_stock_data_tolerates_financials_witness :
  exists q b c,
    get_stock_data frame_sample_empty [] Ticker_sample (text "ACME") (u "1y")
    = Some {| sd_info := PyDict (kv "symbol" (text "ACME") :: info_sample);
              sd_price_data := [101; 102; 99]%Z;
              sd_quarterly_financials := q; sd_balance_sheet := b; sd_cash_flow := c |}
    /\ ((tk_quarterly_financials ticker_acme = Ok q /\ tk_balance_sheet ticker_acme = Ok b
         /\ tk_cashflow ticker_acme = Ok c)
        \/ ((exists e, tk_quarterly_financials ticker_acme = Raise e
                       \/ tk_balance_sheet ticker_acme = Raise e
                       \/ tk_cashflow ticker_acme = Raise e)
            /\ q = [] /\ b = [] /\ c = [])).
Proof.
  exact (get_stock_data_tolerates_financials frame_sample frame_sample_empty []
           Ticker_sample (text "ACME") (u "1y") ticker_acme
           (PyDict (kv "symbol" (text "ACME") :: info_sample)) [101; 102; 99]%Z
           eq_refl eq_refl eq_refl eq_refl eq_refl eq_refl).
Defined.

Lemma validated_symbol_fetches_witness :
  exists t info long_name,
    Ticker_sample (text "ACME") = Ok t /\ tk_info t = Ok info
    /\ py_get info (u "longName") PyNone = Ok long_name /\ truthy long_name = true
    /\ (forall period h,
          tk_history t period = Ok h -> frame_sample_empty h = false ->
          exists d, get_stock_data frame_sample_empty [] Ticker_sample (text "ACME") period
                    = Some d
                    /\ sd_info d = info /\ sd_price_data d = h).
Proof.
  exact (validated_symbol_fetches frame_sample frame_sample_empty [] Ticker_sample
           Ticker_sample (text "ACME") eq_refl eq_refl).
Defined.

(** Without the same answer at both fetches the two methods can disagree:
    a symbol validated at one fetch has no data when the next fetch fails. *)
Lemma fetches_may_disagree :
  validate_symbol Ticker_sample (text "ACME") = true
  /\ get_stock_data frame_sample_empty []
       (fun _ => Raise (APIError (u "Too Many Requests."))) (text "ACME") (u "1y") = None
  /\ get_company_name (frame := frame_sample)
       (fun _ => Raise (APIError (u "Too Many Requests."))) (text "ACME") = PyNone.
Proof. repeat split. Qed.

(* ================================================================== *)
(** ** Properties of the stock-analysis handler *)
(* ================================================================== *)

Section HandlerFacts.

Variable frame : Type.
Variable frame_empty : frame -> bool.
Variable empty_frame : frame.
Variable Ticker : pyval -> result (ticker frame).
Variable json_loads : ustring -> json_outcome.
Variable create : stage -> result response.
Variable timestamp : ustring.
Variable env_key : option ustring.
Variable display_analysis_results : stock_data frame -> pyval -> result unit.
Variable describe : exn -> ustring.

Lemma pressed_with_symbol (stock_symbol : ustring) :
  stock_symbol <> [] -> true && truthy (PyStr stock_symbol) = true.
Proof. destruct stock_symbol; [congruence|reflexivity]. Qed.

(** X21. When the button is pressed for a symbol that [get_stock_data]
    has no data for, the handler shows the invalid-symbol message and
    nothing else: the session is left as it was and no analysis is made,
    whatever the remote model, the decoder and the display would do. *)
Theorem invalid_symbol_stops_analysis
  (s : session frame) (stock_symbol selected_period period : ustring)
  (period_options : list (ustring * ustring)) (a : analyzer) :
  stock_symbol <> [] ->
  AIAnalyzer_init env_key = Ok a ->
  option_get selected_period period_options = Ok period ->
  get_stock_data frame_empty empty_frame Ticker (PyStr stock_symbol) period = None ->
  handle_stock_analysis frame_empty empty_frame Ticker json_loads create timestamp
      env_key display_analysis_results describe
      s stock_symbol selected_period period_options true
  = Ok (s, [StError MSG_INVALID_SYMBOL]).
Proof.
  intros Hs Hi Hp Hd. unfold handle_stock_analysis.
  rewrite (pressed_with_symbol stock_symbol Hs).
  unfold analyze_and_show. now rewrite Hi, Hp, Hd.
Qed.

(** X22. When the button is pressed and the credential is rejected, the
    handler shows the error of the credential check after the prefix
    "Error during analysis: " and stops there: the market data is not
    fetched, the session is left as it was. With no credential set the
    message names the missing variable. *)
Theorem credential_error_shown
  (s : session frame) (stock_symbol selected_period : ustring)
  (period_options : list (ustring * ustring)) (msg : ustring) :
  stock_symbol <> [] ->
  AIAnalyzer_init env_key = Raise (RuntimeError msg) ->
  handle_stock_analysis frame_empty empty_frame Ticker json_loads create timestamp
      env_key display_analysis_results describe
      s stock_symbol selected_period period_options true
  = Ok (s, [StError (CROSS_MARK ++ u " Error during analysis: " ++ msg)])
  /\ (env_key = None -> msg = u "OPENAI_API_KEY is not set").
Proof.
  intros Hs Hi. split.
  - unfold handle_stock_analysis.
    rewrite (pressed_with_symbol stock_symbol Hs).
    unfold analyze_and_show. now rewrite Hi.
  - intros ->. simpl in Hi. now inversion Hi.
Qed.

Lemma result_is_truthy (v : pyval) : keys v = RESULT_KEYS -> truthy v = true.
Proof. destruct v; try discriminate. destruct d; [discriminate|reflexivity]. Qed.

(** X23. After the button is pressed for a symbol with data, the session
    holds that data and its analysis, which has the four top-level keys,
    even when the display raises afterwards; and a later run without the
    button, on a display that does not raise, shows the same data and
    analysis again and leaves the session as it is. *)
Theorem analysis_is_stored_and_shown_again
  (s : session frame) (stock_symbol selected_period period : ustring)
  (period_options : list (ustring * ustring)) (a : analyzer) (data : stock_data frame) :
  stock_symbol <> [] ->
  AIAnalyzer_init env_key = Ok a ->
  option_get selected_period period_options = Ok period ->
  get_stock_data frame_empty empty_frame Ticker (PyStr stock_symbol) period = Some data ->
  exists analysis s' shown,
    handle_stock_analysis frame_empty empty_frame Ticker json_loads create timestamp
      env_key display_analysis_results describe
      s stock_symbol selected_period period_options true
    = Ok (s', DisplayCalled data analysis :: shown)
    /\ analysis = analyze_ai_potential json_loads create timestamp (PyStr stock_symbol)
                    (sd_info data)
    /\ keys analysis = RESULT_KEYS
    /\ analysis_data s' = Some analysis
    /\ stored_stock_data s' = Some data
    /\ (display_analysis_results data analysis = Ok tt ->
        shown = []
        /\ forall symbol' period',
             handle_stock_analysis frame_empty empty_frame Ticker json_loads create timestamp
      env_key display_analysis_results describe
               s' symbol' period' period_options false
             = Ok (s', [DisplayCalled data analysis])).
Proof.
  intros Hs Hi Hp Hd.
  set (analysis := analyze_ai_potential json_loads create timestamp (PyStr stock_symbol)
                     (sd_info data)).
  assert (Hk : keys analysis = RESULT_KEYS) by apply analyze_ai_potential_keys.
  exists analysis, {| analysis_data := Some analysis; stored_stock_data := Some data |}.
  unfold handle_stock_analysis.
  rewrite (pressed_with_symbol stock_symbol Hs).
  unfold analyze_and_show. rewrite Hi, Hp, Hd. cbv zeta. fold analysis.
  destruct (display_analysis_results data analysis) as [[]|e] eqn:Ed.
  - exists []. repeat split; try assumption.
    intros symbol' period'. cbn [andb analysis_data stored_stock_data].
    rewrite (result_is_truthy analysis Hk), Ed. reflexivity.
  - eexists. repeat split; try assumption; discriminate.
Qed.

End HandlerFacts.

Lemma invalid_symbol_stops_analysis_witness :
  handle_stock_analysis frame_sample_empty [] Ticker_sample json_loads_sample create_down
    timestamp_sample (Some (u "sk-valid123")) display_sample describe_sample
    session_empty (u "ZZZZ") (u "1 Year") period_options_sample true
  = Ok (session_empty, [StError MSG_INVALID_SYMBOL]).
Proof.
  apply (invalid_symbol_stops_analysis frame_sample frame_sample_empty [] Ticker_sample
           json_loads_sample create_down timestamp_sample (Some (u "sk-valid123"))
           display_sample describe_sample session_empty (u "ZZZZ") (u "1 Year") (u "1y")
           period_options_sample {| api_key := u "sk-valid123"; model := u "gpt-5" |});
    [discriminate|reflexivity|reflexivity|reflexivity].
Defined.

Lemma credential_error_shown_witness :
  handle_stock_analysis frame_sample_empty [] Ticker_sample json_loads_sample create_down
    timestamp_sample None display_sample describe_sample
    session_empty (u "ACME") (u "1 Year") period_options_sample true
  = Ok (session_empty,
        [StError (CROSS_MARK ++ u " Error during analysis: OPENAI_API_KEY is not set")]).
Proof.
  apply (proj1 (credential_error_shown frame_sample frame_sample_empty [] Ticker_sample
                  json_loads_sample create_down timestamp_sample None
                  display_sample describe_sample session_empty (u "ACME") (u "1 Year")
                  period_options_sample (u "OPENAI_API_KEY is not set")
                  ltac:(discriminate) eq_refl)).
Defined.

Lemma analysis_is_stored_and_shown_again_witness :
  exists analysis s' shown,
    handle_stock_analysis frame_sample_empty [] Ticker_sample json_loads_sample
      create_strategy_down timestamp_sample (Some (u "sk-valid123")) display_sample
      describe_sample session_empty (u "ACME") (u "1 Year") period_options_sample true
    = Ok (s', DisplayCalled data_acme analysis :: shown)
    /\ analysis = analyze_ai_potential json_loads_sample create_strategy_down
                    timestamp_sample (text "ACME") (sd_info data_acme)
    /\ keys analysis = RESULT_KEYS
    /\ analysis_data s' = Some analysis
    /\ stored_stock_data s' = Some data_acme
    /\ (display_sample data_acme analysis = Ok tt ->
        shown = []
        /\ forall symbol' period',
             handle_stock_analysis frame_sample_empty [] Ticker_sample json_loads_sample
               create_strategy_down timestamp_sample (Some (u "sk-valid123"))
               display_sample describe_sample s' symbol' period' period_options_sample
               false
             = Ok (s', [DisplayCalled data_acme analysis])).
Proof.
  exact (analysis_is_stored_and_shown_again frame_sample frame_sample_empty []
           Ticker_sample json_loads_sample create_strategy_down timestamp_sample
           (Some (u "sk-valid123")) display_sample describe_sample session_empty
           (u "ACME") (u "1 Year") (u "1y") period_options_sample
           {| api_key := u "sk-valid123"; model := u "gpt-5" |} data_acme
           ltac:(discriminate) eq_refl eq_refl eq_refl).
Defined.

(* ================================================================== *)
(** ** A malformed strategy answer against a failed strategy call *)
(* ================================================================== *)

Lemma recommendation_depends_on_its_call
  (json_loads : ustring -> json_outcome) (create create' : stage -> result response)
  (ctx strategy : pyval) :
  create' RecommendationStage = create RecommendationStage ->
  get_investment_recommendation json_loads create' ctx strategy
  = get_investment_recommendation json_loads create ctx strategy.
Proof.
  intro H. unfold get_investment_recommendation, get_investment_recommendation_body.
  now rewrite H.
Qed.

Lemma strategy_rejected_body
  (json_loads : ustring -> json_outcome) (create : stage -> result response)
  (ctx : pyval) (r : response) (msg : message) (rest : list message) (body : ustring) :
  create StrategyStage = Ok r -> choices r = msg :: rest ->
  parsed msg = PyNone -> content msg = PyStr body ->
  json_loads body = JSONDecodeError ->
  analyze_ai_strategy json_loads create ctx = EMPTY
  \/ analyze_ai_strategy json_loads create ctx = STRATEGY_FALLBACK.
Proof.
  intros Hc Hch Hp Hco Hj.
  destruct (strategy_prompt ctx) as [[]|e] eqn:E.
  - left. apply (strategy_empty_parse json_loads create ctx r E Hc).
    destruct r as [ch]. cbn [choices] in Hch. subst ch.
    now apply parse_rejected_body with (body := body).
  - right. unfold analyze_ai_strategy, analyze_ai_strategy_body. now rewrite E.
Qed.

(** X12. A strategy answer whose body is malformed JSON and a strategy
    call that raises give the same final result: for two remote models that
    differ in this way on the strategy call and agree on the two later
    calls, [analyze_ai_potential] returns the same object, on every
    input. *)
Theorem malformed_strategy_same_as_failed
  (json_loads : ustring -> json_outcome) (create create' : stage -> result response)
  (timestamp : ustring) (symbol company_info : pyval)
  (r : response) (msg : message) (rest : list message) (body : ustring) (e : exn) :
  create StrategyStage = Ok r -> choices r = msg :: rest ->
  parsed msg = PyNone -> content msg = PyStr body ->
  json_loads body = JSONDecodeError ->
  create' StrategyStage = Raise e ->
  create' RecommendationStage = create RecommendationStage ->
  create' StoryStage = create StoryStage ->
  analyze_ai_potential json_loads create timestamp symbol company_info
  = analyze_ai_potential json_loads create' timestamp symbol company_info.
Proof.
  intros Hc Hch Hp Hco Hj Hc' Hr Hs.
  destruct (dict_or_not company_info) as [[d ->]|Hn].
  - rewrite !analyze_ai_potential_dict. cbv zeta.
    rewrite (strategy_call_raises json_loads create' _ e Hc').
    rewrite (recommendation_depends_on_its_call json_loads create create' _ _ Hr).
    rewrite (story_depends_on_its_call json_loads create create' _ _ Hs).
    destruct (strategy_rejected_body json_loads create (context_of symbol d) r msg rest
                body Hc Hch Hp Hco Hj) as [-> | ->]; [|reflexivity].
    destruct (empty_strategy_reads_as_fallback json_loads create (context_of symbol d))
      as (-> & -> & ->).
    reflexivity.
  - now rewrite !(analyze_ai_potential_not_dict _ _ _ _ _ Hn).
Qed.

Lemma malformed_strategy_same_as_failed_witness :
  analyze_ai_potential json_loads_sample create_malformed timestamp_sample
    (text "ACME") (PyDict info_sample)
  = analyze_ai_potential json_loads_sample
      (fun s => match s with
                | StrategyStage => Raise (APIError (u "Request timed out."))
                | _ => create_malformed s
                end)
      timestamp_sample (text "ACME") (PyDict info_sample).
Proof.
  apply (malformed_strategy_same_as_failed json_loads_sample create_malformed
           (fun s => match s with
                     | StrategyStage => Raise (APIError (u "Request timed out."))
                     | _ => create_malformed s
                     end)
           timestamp_sample (text "ACME") (PyDict info_sample)
           {| choices := [ {| parsed := PyNone; content := text "I cannot answer that." |} ] |}
           {| parsed := PyNone; content := text "I cannot answer that." |} []
           (u "I cannot answer that.") (APIError (u "Request timed out.")));
    reflexivity.
Defined.

(** X24. [get_company_name] builds its own ticker and fetches the
    information again. When its fetch returns the same ticker data as the
    fetch of [validate_symbol] did, a symbol that [validate_symbol] accepts
    has a company name: [get_company_name] returns a truthy value for it;
    so a symbol for which it returns None or an empty name was not
    valid. *)
Theorem validated_symbol_has_name
  (frame : Type) (Ticker Ticker' : pyval -> result (ticker frame)) (symbol : pyval) :
  validate_symbol Ticker symbol = true ->
  Ticker' symbol = Ticker symbol ->
  truthy (get_company_name Ticker' symbol) = true.
Proof.
  unfold validate_symbol, get_company_name. intros H Hsame. rewrite Hsame.
  destruct (Ticker symbol) as [t|]; cbn [bind try_except] in *; [|discriminate].
  destruct (tk_info t) as [info|]; cbn [bind try_except] in *; [|discriminate].
  destruct (truthy info); cbn [negb try_except] in H; [|discriminate].
  destruct (py_contains (u "symbol") info) as [[|]|];
    cbn [bind negb try_except] in H; try discriminate.
  destruct (py_get info (u "longName") PyNone) as [long_name|];
    cbn [bind try_except] in *; [exact H|discriminate].
Qed.

Lemma validated_symbol_has_name_witness :
  truthy (get_company_name Ticker_sample (text "ACME")) = true.
Proof.
  exact (validated_symbol_has_name frame_sample Ticker_sample Ticker_sample (text "ACME")
           eq_refl eq_refl).
Defined.

Lemma init_success_characterised_witness :
  (exists key, Some (u "sk-valid123") = Some key /\ key <> [] /\ pure_ascii key
               /\ {| api_key := u "sk-valid123"; model := u "gpt-5" |}
                  = {| api_key := key; model := u "gpt-5" |})
  /\ (RuntimeError MSG_DASH = RuntimeError MSG_NOT_SET
      \/ RuntimeError MSG_DASH = RuntimeError MSG_DASH
      \/ RuntimeError MSG_DASH = RuntimeError MSG_NON_ASCII).
Proof.
  split.
  - exact (proj1 (init_success_characterised (Some (u "sk-valid123"))) _ eq_refl).
  - exact (proj2 (init_success_characterised (Some (u "sk-" ++ [EN_DASH]))) _ eq_refl).
Defined.

Lemma parse_reads_first_choice_witness :
  exists body,
    PyNone = PyNone /\ text "[[[[" = PyStr body /\ strip_nonempty body = true
    /\ (fun _ => JSONRaises RecursionError) body = JSONRaises RecursionError.
Proof.
  exact (proj2 (proj2 (parse_reads_first_choice (fun _ => JSONRaises RecursionError)
                         {| parsed := PyNone; content := text "[[[[" |} []))
           RecursionError eq_refl).
Defined.
